(** * rflint suite rules: a shallow embedding of [rflint/rules/suiteRules.py]

    The rules of the module are embedded as functions in a small
    state-and-exception monad: the state is the collection of findings the
    reporter appends to, the exception is Python's [IndexError].

    Strings are Stdlib strings, that is sequences of 8-bit characters,
    read as the UTF-8 encoding of the Python string.  [PyStr.lower] maps
    [A]-[Z] to [a]-[z] and leaves every other byte alone, which is
    Python's [str.lower] on ASCII text; [Unicode.lower] is [str.lower] on
    any text, over the code points and a character database.  The header
    pattern is matched on the decoded code points, with the case folding
    of [re.IGNORECASE]. *)

From Stdlib Require Import String Ascii List ZArith Lia Bool Arith.
From Stdlib Require Import DecimalString.
Import ListNotations.

Open Scope string_scope.
Open Scope Z_scope.

Set Implicit Arguments.

(** ** Python string operations *)

Module PyStr.

(** [c.lower()] for one ASCII character; every other byte is left as it
    is. *)
Definition lower_char (c : ascii) : ascii :=
  let n := nat_of_ascii c in
  if (Nat.leb 65 n && Nat.leb n 90)%bool then ascii_of_nat (n + 32) else c.

(** [s.lower()] on ASCII text (see [Unicode.lower] for any text). *)
Fixpoint lower (s : string) : string :=
  match s with
  | EmptyString => EmptyString
  | String c s' => String (lower_char c) (lower s')
  end.

(** [s.startswith(p)] *)
Fixpoint startswith (p s : string) : bool :=
  match p with
  | EmptyString => true
  | String a p' =>
      match s with
      | EmptyString => false
      | String b s' => (Ascii.eqb a b && startswith p' s')%bool
      end
  end.

(** [needle in hay] for two strings: substring test. *)
Fixpoint contains (needle hay : string) : bool :=
  match hay with
  | EmptyString => startswith needle EmptyString
  | String _ hay' => (startswith needle hay || contains needle hay')%bool
  end.

(** [s.replace(old, new)]: the occurrences of [old] are replaced from left
    to right, without overlap.  [skip] counts the characters of an
    occurrence that are still to be dropped. *)
Fixpoint replace_from (old new : string) (skip : nat) (s : string) : string :=
  match s with
  | EmptyString => EmptyString
  | String c s' =>
      match skip with
      | S k => replace_from old new k s'
      | O =>
          if startswith old s
          then new ++ replace_from old new (Nat.pred (String.length old)) s'
          else String c (replace_from old new O s')
      end
  end.

(** With an empty [old], Python puts [new] before every character and at
    the end. *)
Fixpoint interleave (new s : string) : string :=
  match s with
  | EmptyString => new
  | String c s' => new ++ String c (interleave new s')
  end.

Definition replace (old new s : string) : string :=
  match old with
  | EmptyString => interleave new s
  | String _ _ => replace_from old new O s
  end.

(** [x in l] for a list of strings. *)
Definition mem (x : string) (l : list string) : bool :=
  existsb (String.eqb x) l.

(** [str(n)] / ["%s" % n] for an integer. *)
Definition of_int (n : Z) : string := NilZero.string_of_int (Z.to_int n).

(** Keep the characters that satisfy [f]. *)
Fixpoint filter (f : ascii -> bool) (s : string) : string :=
  match s with
  | EmptyString => EmptyString
  | String c s' => if f c then String c (filter f s') else filter f s'
  end.

End PyStr.

(** ** Code points

    A string stands for a Python string by its UTF-8 encoding: ASCII text
    byte for byte, any other character by the bytes of its encoding.
    Equality, concatenation, the substring test and the removal of an
    ASCII character act on the encoding as they act on the Python string.
    Where Python works on code points and it matters beyond ASCII, the
    code points are read back with [decode]. *)

Module Utf8.

(** The code points of an ASCII text. *)
Definition codes (s : string) : list N := map N_of_ascii (list_ascii_of_string s).

(** The payload of a continuation byte [10xxxxxx]. *)
Definition continuation (b : ascii) : option N :=
  let n := N_of_ascii b in
  if (128 <=? n)%N && (n <=? 191)%N then Some (n - 128)%N else None.

(** A byte that is part of no well-formed sequence is kept apart from
    every character, as Python's [surrogateescape] keeps it. *)
Definition stray (n : N) : N := (56320 + n)%N.

(** The code points a byte sequence encodes: one to four bytes each,
    shortest form only, no surrogate, nothing above U+10FFFF. *)
Fixpoint decode (s : string) : list N :=
  match s with
  | EmptyString => []
  | String b0 s1 =>
      let n0 := N_of_ascii b0 in
      if (n0 <? 128)%N then n0 :: decode s1
      else
        match s1 with
        | EmptyString => [stray n0]
        | String b1 s2 =>
            match continuation b1 with
            | None => stray n0 :: decode s1
            | Some c1 =>
                if (194 <=? n0)%N && (n0 <=? 223)%N
                then ((n0 - 192) * 64 + c1)%N :: decode s2
                else
                  match s2 with
                  | EmptyString => stray n0 :: decode s1
                  | String b2 s3 =>
                      match continuation b2 with
                      | None => stray n0 :: decode s1
                      | Some c2 =>
                          if (224 <=? n0)%N && (n0 <=? 239)%N then
                            let cp := ((n0 - 224) * 4096 + c1 * 64 + c2)%N in
                            if (2048 <=? cp)%N
                               && negb ((55296 <=? cp)%N && (cp <=? 57343)%N)
                            then cp :: decode s3
                            else stray n0 :: decode s1
                          else
                            match s3 with
                            | EmptyString => stray n0 :: decode s1
                            | String b3 s4 =>
                                match continuation b3 with
                                | None => stray n0 :: decode s1
                                | Some c3 =>
                                    let cp := ((n0 - 240) * 262144 + c1 * 4096
                                               + c2 * 64 + c3)%N in
                                    if (240 <=? n0)%N && (n0 <=? 244)%N
                                       && (65536 <=? cp)%N && (cp <=? 1114111)%N
                                    then cp :: decode s4
                                    else stray n0 :: decode s1
                                end
                            end
                      end
                  end
            end
        end
  end.

(** Every byte is below 128. *)
Fixpoint is_ascii (s : string) : bool :=
  match s with
  | EmptyString => true
  | String c s' => ((N_of_ascii c <? 128)%N && is_ascii s')%bool
  end.

End Utf8.

(** ** [normalize_name] *)

(** [string.replace(" ", "").replace("_", "").lower()] on the bytes of an
    ASCII name; [Unicode.normalize_name] is the function on any text. *)
Definition normalize_name (s : string) : string :=
  PyStr.lower (PyStr.replace "_" "" (PyStr.replace " " "" s)).

(** The normal form in the words of the specification: drop the spaces and
    the underscores, put what remains in lower case. *)
Definition is_separator (c : ascii) : bool :=
  (Ascii.eqb c " " || Ascii.eqb c "_")%bool.

Fixpoint normalize_spec (s : string) : string :=
  match s with
  | EmptyString => EmptyString
  | String c s' =>
      if is_separator c then normalize_spec s'
      else String (PyStr.lower_char c) (normalize_spec s')
  end.

(** Two names differ only by spaces, underscores and the case of the
    letters [A]-[Z]. *)
Inductive same_name : string -> string -> Prop :=
| same_nil : same_name "" ""
| same_skip_l c x y : is_separator c = true -> same_name x y -> same_name (String c x) y
| same_skip_r c x y : is_separator c = true -> same_name x y -> same_name x (String c y)
| same_char a b x y :
    PyStr.lower_char a = PyStr.lower_char b ->
    is_separator a = false -> is_separator b = false ->
    same_name x y -> same_name (String a x) (String b y).


(** ** [str.lower] and [normalize_name] on any text

    Python lowers a string with the tables of the Unicode character
    database, which are no part of the rules module: they are a parameter
    here. *)

Module Unicode.

Open Scope N_scope.

(** The tables [str.lower] reads: the full lower-case mapping of a code
    point, and the properties Cased and Case_Ignorable. *)
Record db : Type := mk {
  to_lower_full : N -> list N;
  cased : N -> bool;
  case_ignorable : N -> bool
}.

Definition capital_sigma : N := 931.   (* U+03A3 *)
Definition final_sigma : N := 962.     (* U+03C2 *)
Definition small_sigma : N := 963.     (* U+03C3 *)

(** The first code point of [s] that is not case-ignorable. *)
Fixpoint first_significant (d : db) (s : list N) : option N :=
  match s with
  | [] => None
  | c :: rest => if case_ignorable d c then first_significant d rest else Some c
  end.

Definition next_is_cased (d : db) (s : list N) : bool :=
  match first_significant d s with
  | Some c => cased d c
  | None => false
  end.

(** A capital sigma becomes a final sigma when a cased letter stands
    before it and none after it, case-ignorable code points skipped;
    [before] holds the code points before the sigma, nearest first. *)
Definition handle_capital_sigma (d : db) (before rest : list N) : N :=
  if next_is_cased d before && negb (next_is_cased d rest)
  then final_sigma else small_sigma.

Fixpoint lower_from (d : db) (before s : list N) : list N :=
  match s with
  | [] => []
  | c :: rest =>
      ((if c =? capital_sigma then [handle_capital_sigma d before rest]
        else to_lower_full d c)
       ++ lower_from d (c :: before) rest)%list
  end.

(** [s.lower()] on ASCII text (see [Unicode.lower] for any text). *)
Definition lower (d : db) (s : list N) : list N := lower_from d [] s.

Fixpoint startswith (p s : list N) : bool :=
  match p with
  | [] => true
  | a :: p' =>
      match s with
      | [] => false
      | b :: s' => (a =? b) && startswith p' s'
      end
  end.

(** [s.replace(old, new)], as [PyStr.replace_from] has it. *)
Fixpoint replace_from (old new : list N) (skip : nat) (s : list N) : list N :=
  match s with
  | [] => []
  | c :: s' =>
      match skip with
      | S k => replace_from old new k s'
      | O =>
          if startswith old s
          then (new ++ replace_from old new (Nat.pred (length old)) s')%list
          else c :: replace_from old new O s'
      end
  end.

Fixpoint interleave (new s : list N) : list N :=
  match s with
  | [] => new
  | c :: s' => (new ++ c :: interleave new s')%list
  end.

Definition replace (old new s : list N) : list N :=
  match old with
  | [] => interleave new s
  | _ :: _ => replace_from old new O s
  end.

Definition space : N := 32.
Definition underscore : N := 95.

(** [string.replace(" ", "").replace("_", "").lower()] *)
Definition normalize_name (d : db) (s : list N) : list N :=
  lower d (replace [underscore] [] (replace [space] [] s)).

Definition is_separator (c : N) : bool := (c =? space) || (c =? underscore).

Definition is_upper (c : N) : bool := (65 <=? c) && (c <=? 90).
Definition is_lower (c : N) : bool := (97 <=? c) && (c <=? 122).

(** An ASCII letter in lower case, any other code point as it is. *)
Definition ascii_fold (c : N) : N := if is_upper c then c + 32 else c.

(** What the development needs of the database: its entries for ASCII. *)
Definition ascii_facts (d : db) : Prop :=
  (forall c, is_upper c = true -> to_lower_full d c = [c + 32])
  /\ (forall c, c < 128 -> is_upper c = false -> to_lower_full d c = [c])
  /\ (forall c, is_upper c || is_lower c = true ->
                cased d c = true /\ case_ignorable d c = false).

(** Two texts differ only by spaces, underscores and the case of ASCII
    letters. *)
Inductive same_name : list N -> list N -> Prop :=
| same_nil : same_name [] []
| same_skip_l c x y : is_separator c = true -> same_name x y -> same_name (c :: x) y
| same_skip_r c x y : is_separator c = true -> same_name x y -> same_name x (c :: y)
| same_char a b x y :
    ascii_fold a = ascii_fold b ->
    is_separator a = false -> is_separator b = false ->
    same_name x y -> same_name (a :: x) (b :: y).

Definition in_range (lo hi c : N) : bool := (lo <=? c) && (c <=? hi).

(** An excerpt of the character database: its entries for the code points
    up to U+00FF, for the Greek letters U+0391 to U+03C9 and for U+0130,
    U+0131, U+017F, U+0307 and U+212A.  Other code points have no entry
    in the excerpt and pass for uncased. *)
Definition excerpt : db :=
  mk (fun c =>
        if is_upper c then [c + 32]
        else if in_range 192 222 c && negb (c =? 215) then [c + 32]
        else if in_range 913 939 c && negb (c =? 930) then [c + 32]
        else if c =? 304 then [105; 775]
        else if c =? 8490 then [107]
        else [c])
     (fun c =>
        is_upper c || is_lower c
        || (c =? 170) || (c =? 181) || (c =? 186)
        || (in_range 192 255 c && negb (c =? 215) && negb (c =? 247))
        || (in_range 913 969 c && negb (c =? 930))
        || (c =? 304) || (c =? 305) || (c =? 383) || (c =? 8490))
     (fun c =>
        (c =? 39) || (c =? 46) || (c =? 58) || (c =? 94) || (c =? 96)
        || (c =? 168) || (c =? 173) || (c =? 175) || (c =? 180) || (c =? 183)
        || (c =? 184) || (c =? 775)).

Close Scope N_scope.

End Unicode.


(** ** The document model

    The parser that builds these values ([rflint.parser]) is not part of
    the rules module; the records hold the attributes the rules read. *)

Module Row.
(** Modelled from the spec: a row, its cells and the line it stands on.
    [row[i]] is a lookup in [cells]. *)
Record t : Type := mk { cells : list string; linenumber : Z }.
End Row.

(** Modelled from the spec: the class of a table object; the rules only
    ask whether a table is a [SettingTable]. *)
Inductive table_class : Type := SettingTable | OtherTable.

Definition isinstance_SettingTable (c : table_class) : bool :=
  match c with SettingTable => true | OtherTable => false end.

Module Table.
(** Modelled from the spec: a table, with its header text as written, the
    line of the header, and its rows. *)
Record t : Type := mk {
  class : table_class;
  name : string;
  linenumber : Z;
  rows : list Row.t
}.
End Table.

Module Keyword.
(** Modelled from the spec: a keyword definition. *)
Record t : Type := mk { name : string; linenumber : Z }.
End Keyword.

Module Testcase.
(** Modelled from the spec: a test-case definition. *)
Record t : Type := mk { name : string; linenumber : Z }.
End Testcase.

Module Suite.
(** Modelled from the spec: the parsed document; [keywords] and
    [testcases] are the sequences the parser derives, in source order. *)
Record t : Type := mk {
  path : string;
  name : string;
  tables : list Table.t;
  keywords : list Keyword.t;
  testcases : list Testcase.t
}.
End Suite.

(** ** Findings, exceptions and the rule monad *)

(** Modelled from the spec: the two severities of [rflint.common]. *)
Inductive severity : Type := ERROR | WARNING.

(** Modelled from the spec: the finding record the reporter appends
    (document reference, rule identity, severity, message, line number);
    the reporter itself lives in [rflint.common]. *)
Record Violation : Type := mkViolation {
  v_document : string;
  v_rule : string;
  v_severity : severity;
  v_message : string;
  v_linenumber : Z
}.

Definition Sink : Type := list Violation.

(** Where an index was out of range: a cell of a row ([row[i]]) or an
    entry of a plain list ([testcases[i]]). *)
Inductive index_site : Type := OfRow | OfList.

Inductive exn : Type := IndexError (site : index_site).

Inductive outcome (A : Type) : Type :=
| Val (a : A)
| Exc (e : exn).
Arguments Val {A} a.
Arguments Exc {A} e.

(** A computation reads and extends the findings collected so far and
    either yields a value or raises; findings reported before an exception
    stay reported. *)
Definition M (A : Type) : Type := Sink -> outcome A * Sink.

Definition ret {A} (a : A) : M A := fun k => (Val a, k).

Definition raise {A} (e : exn) : M A := fun k => (Exc e, k).

Definition bind {A B} (c : M A) (f : A -> M B) : M B :=
  fun k =>
    match c k with
    | (Val a, k') => f a k'
    | (Exc e, k') => (Exc e, k')
    end.

Declare Scope rule_scope.
Delimit Scope rule_scope with rule.
Notation "x <- c ;; f" := (bind c (fun x => f))
  (at level 61, c at next level, right associativity) : rule_scope.
Notation "c ;; f" := (bind c (fun _ => f))
  (at level 61, right associativity) : rule_scope.
Open Scope rule_scope.

(** How a statement ends: it falls through, leaves the enclosing loop, or
    leaves the function. *)
Inductive signal : Type := Next | Break | Return.

(** [for x in l: body], the body working on the local variables [st]. *)
Fixpoint for_acc {A S : Type} (l : list A) (body : A -> S -> M (signal * S))
    (st : S) : M (signal * S) :=
  match l with
  | [] => ret (Next, st)
  | x :: l' =>
      r <- body x st ;;
      match fst r with
      | Next => for_acc l' body (snd r)
      | Break => ret (Next, snd r)
      | Return => ret (Return, snd r)
      end
  end.

(** [for x in l: body] without local variables. *)
Fixpoint for_each {A : Type} (l : list A) (body : A -> M signal) : M signal :=
  match l with
  | [] => ret Next
  | x :: l' =>
      sg <- body x ;;
      match sg with
      | Next => for_each l' body
      | Break => ret Next
      | Return => ret Return
      end
  end.

(** [l[i]] on a Python list: a negative index counts from the end. *)
Definition py_index {A : Type} (l : list A) (i : Z) : option A :=
  let n := Z.of_nat (length l) in
  if (0 <=? i) && (i <? n) then nth_error l (Z.to_nat i)
  else if (- n <=? i) && (i <? 0) then nth_error l (Z.to_nat (n + i))
  else None.

(** [row[i]] *)
Definition row_getitem (row : Row.t) (i : Z) : M string :=
  match py_index (Row.cells row) i with
  | Some c => ret c
  | None => raise (IndexError OfRow)
  end.

(** [l[i]] *)
Definition list_getitem {A : Type} (l : list A) (i : Z) : M A :=
  match py_index l i with
  | Some x => ret x
  | None => raise (IndexError OfList)
  end.

(** Modelled from the spec: what every rule object carries, its identity
    and its severity (the base class [SuiteRule] is in [rflint.common]). *)
Record RuleInfo : Type := mkRule { rulename : string; rule_severity : severity }.

(** The finding a rule files on a document. *)
Definition finding (self : RuleInfo) (suite : Suite.t) (message : string)
    (linenum : Z) : Violation :=
  mkViolation (Suite.path suite) (rulename self) (rule_severity self) message linenum.

(** Modelled from the spec: [self.report(suite, message, linenum)], which
    appends the finding to the collection of the run. *)
Definition report (self : RuleInfo) (suite : Suite.t) (message : string)
    (linenum : Z) : M unit :=
  fun k => (Val tt, (k ++ [finding self suite message linenum])%list).

(** [any(name in s for name in names)] *)
Definition any_in (names : list string) (s : string) : bool :=
  existsb (fun name => PyStr.contains name s) names.

Definition dquote : string := String (ascii_of_nat 34) EmptyString.

(** ** Regular expressions, as far as [InvalidTable] uses them

    A pattern is written in ASCII, as the rule's is; the subject is any
    text, matched code point by code point. *)

Module Re.

Inductive regex : Type :=
| Lit (w : string)          (* a literal run of characters *)
| Cat (a b : regex)         (* [ab] *)
| Alt (a b : regex)         (* [a|b] *)
| Opt (a : regex)           (* [a?] *)
| Bol                       (* [^] *)
| Eol.                      (* [$] *)

(** What [IGNORECASE] identifies with an ASCII character when the subject
    is a [str]: a letter with its other case, and besides U+0130 and
    U+0131 with [i], U+017F with [s], U+212A with [k]. *)
Definition sre_fold (c : N) : N :=
  if (65 <=? c)%N && (c <=? 90)%N then (c + 32)%N
  else if (c =? 304)%N || (c =? 305)%N then 105%N
  else if (c =? 383)%N then 115%N
  else if (c =? 8490)%N then 107%N
  else c.

(** The pattern character [a] matches the code point [c]. *)
Definition chr_match (ignorecase : bool) (a : ascii) (c : N) : bool :=
  if ignorecase then (sre_fold c =? sre_fold (N_of_ascii a))%N
  else (c =? N_of_ascii a)%N.

(** Match the literal [w] at the front of [s]; what is left of [s]. *)
Fixpoint lit_match (ignorecase : bool) (w : string) (s : list N) : option (list N) :=
  match w with
  | EmptyString => Some s
  | String a w' =>
      match s with
      | [] => None
      | c :: s' =>
          if chr_match ignorecase a c then lit_match ignorecase w' s' else None
      end
  end.

Definition newline : ascii := ascii_of_nat 10.
Definition newline_code : N := 10.

(** Without [MULTILINE], [$] matches at the end of the string and just
    before a newline that ends the string. *)
Definition at_end (s : list N) : bool :=
  match s with
  | [] => true
  | [c] => (c =? newline_code)%N
  | _ :: _ :: _ => false
  end.

(** A backtracking matcher: [r] is matched at position [pos], where [s] is
    the rest of the subject, and [k] goes on from where the match ends. *)
Fixpoint run (ignorecase : bool) (r : regex) (pos : nat) (s : list N)
    (k : nat -> list N -> bool) : bool :=
  match r with
  | Lit w =>
      match lit_match ignorecase w s with
      | Some rest => k (pos + String.length w)%nat rest
      | None => false
      end
  | Cat a b => run ignorecase a pos s (fun p t => run ignorecase b p t k)
  | Alt a b => (run ignorecase a pos s k || run ignorecase b pos s k)%bool
  | Opt a => (run ignorecase a pos s k || k pos s)%bool
  | Bol => (Nat.eqb pos 0 && k pos s)%bool
  | Eol => (at_end s && k pos s)%bool
  end.

(** [re.match(r, s, flags)] is not [None]: [r] matches at the start of
    the text that [s] encodes. *)
Definition match_ (r : regex) (s : string) (ignorecase : bool) : bool :=
  run ignorecase r 0 (Utf8.decode s) (fun _ _ => true).

(** The anchor-free expressions and the finite set of words they match. *)
Fixpoint anchor_free (r : regex) : bool :=
  match r with
  | Lit _ => true
  | Cat a b | Alt a b => (anchor_free a && anchor_free b)%bool
  | Opt a => anchor_free a
  | Bol | Eol => false
  end.

Fixpoint words (r : regex) : list string :=
  match r with
  | Lit w => [w]
  | Cat a b => flat_map (fun x => map (fun y => x ++ y) (words b)) (words a)
  | Alt a b => (words a ++ words b)%list
  | Opt a => (words a ++ [EmptyString])%list
  | Bol | Eol => []
  end.

End Re.

(** [settings?|metadata|(test )?cases?|(user )?keywords?|variables?] *)
Definition table_names : Re.regex :=
  Re.Alt (Re.Cat (Re.Lit "setting") (Re.Opt (Re.Lit "s")))
 (Re.Alt (Re.Lit "metadata")
 (Re.Alt (Re.Cat (Re.Opt (Re.Lit "test ")) (Re.Cat (Re.Lit "case") (Re.Opt (Re.Lit "s"))))
 (Re.Alt (Re.Cat (Re.Opt (Re.Lit "user ")) (Re.Cat (Re.Lit "keyword") (Re.Opt (Re.Lit "s"))))
         (Re.Cat (Re.Lit "variable") (Re.Opt (Re.Lit "s")))))).

(** [^(settings?|metadata|(test )?cases?|(user )?keywords?|variables?)$] *)
Definition table_header_re : Re.regex :=
  Re.Cat Re.Bol (Re.Cat table_names Re.Eol).

(** The recognized header forms, as the specification lists them. *)
Definition recognized_forms : list string :=
  ["setting"; "settings"; "metadata";
   "case"; "cases"; "test case"; "test cases";
   "keyword"; "keywords"; "user keyword"; "user keywords";
   "variable"; "variables"].

(** Two texts are the same code points. *)
Fixpoint codes_eqb (x y : list N) : bool :=
  match x, y with
  | [], [] => true
  | a :: x', b :: y' => ((a =? b)%N && codes_eqb x' y')%bool
  | _, _ => false
  end.

(** A header text is one of the recognized forms once every code point is
    folded as [IGNORECASE] folds it. *)
Definition recognized_header (h : list N) : bool :=
  existsb (fun form => codes_eqb (map Re.sre_fold h) (Utf8.codes form)) recognized_forms.

(** [s] without the one newline that may end it. *)
Fixpoint chomp (s : list N) : list N :=
  match s with
  | [] => []
  | c :: s' =>
      match s' with
      | [] => if (c =? Re.newline_code)%N then [] else s
      | _ :: _ => c :: chomp s'
      end
  end.

(** ** The rules *)

Module RequiredRobotFileSuffxAndFolder.

Definition self : RuleInfo := mkRule "RequiredRobotFileSuffxAndFolder" ERROR.

Definition apply (suite : Suite.t) : M unit :=
  (if negb (PyStr.contains ".robot" (Suite.path suite))
   then report self suite ("Required file suffix is " ++ dquote ++ ".robot" ++ dquote) 0
   else ret tt) ;;
  (if negb (PyStr.contains "5GC" (Suite.path suite))
   then report self suite ("Required Parent folder is " ++ dquote ++ "5GC*" ++ dquote) 0
   else ret tt).

End RequiredRobotFileSuffxAndFolder.

Module RequirdNoCurdirInImporting.

Definition self : RuleInfo := mkRule "RequirdNoCurdirInImporting" ERROR.

(** The body of [for row in table.rows]. *)
Definition row_body (suite : Suite.t) (row : Row.t) : M signal :=
  c0 <- row_getitem row 0 ;;
  if String.eqb c0 "Resource" then
    c1 <- row_getitem row 1 ;;
    if PyStr.contains "${CURDIR}" c1
    then report self suite "Don't use ${CURDIR}" (Row.linenumber row) ;; ret Next
    else ret Next
  else ret Next.

Definition apply (suite : Suite.t) : M unit :=
  for_each (Suite.tables suite) (fun table =>
    if isinstance_SettingTable (Table.class table)
    then for_each (Table.rows table) (row_body suite)
    else ret Next) ;;
  ret tt.

End RequirdNoCurdirInImporting.

Module RequiredAutherInfo.

Definition self : RuleInfo := mkRule "RequiredAutherInfo" ERROR.

Definition author_tokens : list string := ["author"; "name"; "modified"].
Definition contact_tokens : list string := ["contact"; "mail"; "team"].

(** The body of [for str in row], on the locals
    [(AuthorFlag, ContactFlag)]. *)
Definition cell_body (str : string) (flags : bool * bool) : M (signal * (bool * bool)) :=
  let AuthorFlag :=
    if any_in author_tokens (PyStr.lower str) then true else fst flags in
  let ContactFlag :=
    if any_in contact_tokens (PyStr.lower str) then true else snd flags in
  ret (Next, (AuthorFlag, ContactFlag)).

(** The body of [for table in suite.tables]. *)
Definition table_body (suite : Suite.t) (table : Table.t) : M signal :=
  if isinstance_SettingTable (Table.class table) then
    r <- for_acc (Table.rows table)
           (fun row flags => for_acc (Row.cells row) cell_body flags)
           (false, false) ;;
    let AuthorFlag := fst (snd r) in
    let ContactFlag := snd (snd r) in
    (if Bool.eqb AuthorFlag false
     then report self suite "Author name is needed" 1 else ret tt) ;;
    (if Bool.eqb ContactFlag false
     then report self suite "Contact list is needed" 1 else ret tt) ;;
    ret Next
  else ret Next.

Definition apply (suite : Suite.t) : M unit :=
  for_each (Suite.tables suite) (table_body suite) ;;
  ret tt.

End RequiredAutherInfo.

Module PeriodInSuiteName.

Definition self : RuleInfo := mkRule "PeriodInSuiteName" WARNING.

Definition apply (suite : Suite.t) : M unit :=
  if PyStr.contains "." (Suite.name suite)
  then report self suite ("'.' in suite name '" ++ Suite.name suite ++ "'") 0
  else ret tt.

End PeriodInSuiteName.

Module InvalidTable.

Definition self : RuleInfo := mkRule "InvalidTable" WARNING.

Definition table_body (suite : Suite.t) (table : Table.t) : M signal :=
  if negb (Re.match_ table_header_re (Table.name table) true)
  then report self suite ("Unknown table name '" ++ Table.name table ++ "'")
         (Table.linenumber table) ;; ret Next
  else ret Next.

Definition apply (suite : Suite.t) : M unit :=
  for_each (Suite.tables suite) (table_body suite) ;;
  ret tt.

End InvalidTable.

Module DuplicateKeywordNames.

Definition self : RuleInfo := mkRule "DuplicateKeywordNames" ERROR.

(** The body of [for keyword in suite.keywords], on the local [cache]. *)
Definition keyword_body (suite : Suite.t) (keyword : Keyword.t)
    (cache : list string) : M (signal * list string) :=
  let name := normalize_name (Keyword.name keyword) in
  (if PyStr.mem name cache
   then report self suite ("Duplicate keyword name '" ++ Keyword.name keyword ++ "'")
          (Keyword.linenumber keyword)
   else ret tt) ;;
  ret (Next, (cache ++ [name])%list).

Definition apply (suite : Suite.t) : M unit :=
  for_acc (Suite.keywords suite) (keyword_body suite) [] ;;
  ret tt.

End DuplicateKeywordNames.

Module DuplicateTestNames.

Definition self : RuleInfo := mkRule "DuplicateTestNames" ERROR.

(** The body of [for testcase in suite.testcases], on the local [cache]. *)
Definition testcase_body (suite : Suite.t) (testcase : Testcase.t)
    (cache : list string) : M (signal * list string) :=
  let name := normalize_name (Testcase.name testcase) in
  (if PyStr.mem name cache
   then report self suite ("Duplicate testcase name '" ++ Testcase.name testcase ++ "'")
          (Testcase.linenumber testcase)
   else ret tt) ;;
  ret (Next, (cache ++ [name])%list).

Definition apply (suite : Suite.t) : M unit :=
  for_acc (Suite.testcases suite) (testcase_body suite) [] ;;
  ret tt.

End DuplicateTestNames.

(** The scan both [RequireSuiteDocumentation] and [TooManyTestCases] start
    with: [return] at the first settings-table row whose first cell, in
    lower case, is [key]. *)
Definition return_on_setting (key : string) (suite : Suite.t) : M signal :=
  for_each (Suite.tables suite) (fun table =>
    if isinstance_SettingTable (Table.class table)
    then for_each (Table.rows table) (fun row =>
           c0 <- row_getitem row 0 ;;
           if String.eqb (PyStr.lower c0) key then ret Return else ret Next)
    else ret Next).

Module RequireSuiteDocumentation.

Definition self : RuleInfo := mkRule "RequireSuiteDocumentation" WARNING.

Definition apply (suite : Suite.t) : M unit :=
  sg <- return_on_setting "documentation" suite ;;
  match sg with
  | Return => ret tt
  | _ =>
      r <- for_acc (Suite.tables suite)
             (fun table (linenum : Z) =>
                if isinstance_SettingTable (Table.class table)
                then ret (Break, Table.linenumber table + 1)
                else ret (Next, linenum))
             1 ;;
      report self suite "No suite documentation" (snd r)
  end.

End RequireSuiteDocumentation.

Module TooManyTestCases.

(** The rule object: the class attributes and the configurable
    [max_allowed]. *)
Record t : Type := mk { max_allowed : Z }.

Definition info : RuleInfo := mkRule "TooManyTestCases" WARNING.

(** The object as the class creates it: [max_allowed = 10]. *)
Definition default : t := mk 10.

(** [configure]: the argument is taken after [int(...)]. *)
Definition configure (self : t) (max_allowed : Z) : t := mk max_allowed.

Definition message (count allowed : Z) : string :=
  "Too many test cases (" ++ PyStr.of_int count ++ " > " ++ PyStr.of_int allowed
    ++ ") in test suite".

Definition apply (self : t) (suite : Suite.t) : M unit :=
  sg <- return_on_setting "test template" suite ;;
  match sg with
  | Return => ret tt
  | _ =>
      let testcases := Suite.testcases suite in
      if Z.of_nat (length testcases) >? max_allowed self then
        tc <- list_getitem testcases (max_allowed self) ;;
        report info suite
          (message (Z.of_nat (length testcases)) (max_allowed self))
          (Testcase.linenumber tc)
      else ret tt
  end.

End TooManyTestCases.

(** ** Running the whole rule set *)

(** A rule as the engine sees it. *)
Record Rule : Type := mkR { rule_info : RuleInfo; rule_apply : Suite.t -> M unit }.

(** The rules of the module, in the order of their definition. *)
Definition suite_rules (tm : TooManyTestCases.t) : list Rule :=
  [ mkR RequiredRobotFileSuffxAndFolder.self RequiredRobotFileSuffxAndFolder.apply;
    mkR RequirdNoCurdirInImporting.self RequirdNoCurdirInImporting.apply;
    mkR RequiredAutherInfo.self RequiredAutherInfo.apply;
    mkR PeriodInSuiteName.self PeriodInSuiteName.apply;
    mkR InvalidTable.self InvalidTable.apply;
    mkR DuplicateKeywordNames.self DuplicateKeywordNames.apply;
    mkR DuplicateTestNames.self DuplicateTestNames.apply;
    mkR RequireSuiteDocumentation.self RequireSuiteDocumentation.apply;
    mkR TooManyTestCases.info (TooManyTestCases.apply tm) ].

(** Modelled from the spec: the engine, which is not in the rules module.
    It calls every rule once on the document; a rule that raises is
    recorded as a fault, with its name, and the next rule runs all the
    same. *)
Fixpoint run_rules (rules : list Rule) (suite : Suite.t) (k : Sink)
    : list (string * exn) * Sink :=
  match rules with
  | [] => ([], k)
  | r :: rules' =>
      match rule_apply r suite k with
      | (Val _, k') => run_rules rules' suite k'
      | (Exc e, k') =>
          let '(faults, k'') := run_rules rules' suite k' in
          ((rulename (rule_info r), e) :: faults, k'')
      end
  end.

(** One run on a fresh collection: the faults and the findings. *)
Definition check (tm : TooManyTestCases.t) (suite : Suite.t)
    : list (string * exn) * Sink :=
  run_rules (suite_rules tm) suite [].

(** ** The vocabulary of the properties *)

(** What a computation reports when it starts from an empty collection,
    and how it ends. *)
Definition findings {A} (c : M A) : list Violation := snd (c []).
Definition result {A} (c : M A) : outcome A := fst (c []).

(** A computation only appends: what it does never depends on the
    findings collected before. *)
Definition appends {A} (c : M A) : Prop :=
  forall k, c k = (result c, (k ++ findings c)%list).

(** The entry at index [i] of [names] also stands at an earlier index. *)
Definition seen_before (names : list string) (i : nat) : bool :=
  match nth_error names i with
  | Some n => PyStr.mem n (firstn i names)
  | None => false
  end.

(** The duplicate findings in the words of the specification: entry by
    entry, in order, one finding for every entry whose normalized name
    occurred earlier. *)
Definition duplicates_spec {A} (name : A -> string) (v : A -> Violation)
    (l : list A) : list Violation :=
  flat_map
    (fun i =>
       match nth_error l i with
       | Some x =>
           if seen_before (map (fun y => normalize_name (name y)) l) i
           then [v x] else []
       | None => []
       end)
    (seq 0 (length l)).

Definition keyword_finding (suite : Suite.t) (kw : Keyword.t) : Violation :=
  finding DuplicateKeywordNames.self suite
    ("Duplicate keyword name '" ++ Keyword.name kw ++ "'") (Keyword.linenumber kw).

Definition testcase_finding (suite : Suite.t) (tc : Testcase.t) : Violation :=
  finding DuplicateTestNames.self suite
    ("Duplicate testcase name '" ++ Testcase.name tc ++ "'") (Testcase.linenumber tc).

(** The settings tables of a document. *)
Definition setting_tables (suite : Suite.t) : list Table.t :=
  filter (fun t => isinstance_SettingTable (Table.class t)) (Suite.tables suite).

(** The rows of all settings tables, in order. *)
Definition setting_rows (suite : Suite.t) : list Row.t :=
  flat_map Table.rows (setting_tables suite).

(** The first cell of the row is [key], letter case aside. *)
Definition first_cell_is (key : string) (row : Row.t) : bool :=
  match Row.cells row with
  | c0 :: _ => String.eqb (PyStr.lower c0) key
  | [] => false
  end.

(** Some settings-table row has [key] as its first cell. *)
Definition has_setting (key : string) (suite : Suite.t) : bool :=
  existsb (first_cell_is key) (setting_rows suite).

(** Every settings-table row has a first cell. *)
Definition first_cells_present (suite : Suite.t) : bool :=
  forallb (fun row => match Row.cells row with [] => false | _ :: _ => true end)
    (setting_rows suite).

(** Every settings-table row has a first cell, and a second one when the
    first is [Resource]. *)
Definition row_indexable (row : Row.t) : bool :=
  match Row.cells row with
  | [] => false
  | c0 :: rest =>
      if String.eqb c0 "Resource"
      then match rest with [] => false | _ :: _ => true end
      else true
  end.

Definition rows_indexable (suite : Suite.t) : bool :=
  forallb row_indexable (setting_rows suite).

(** The rows the import rule gets through: those before the first row
    that lacks a cell the rule reads. *)
Fixpoint indexable_prefix (rows : list Row.t) : list Row.t :=
  match rows with
  | [] => []
  | row :: rest =>
      if row_indexable row then row :: indexable_prefix rest else []
  end.

(** The finding of the import rule for one row, if any. *)
Definition curdir_findings (suite : Suite.t) (row : Row.t) : list Violation :=
  match Row.cells row with
  | c0 :: c1 :: _ =>
      if (String.eqb c0 "Resource" && PyStr.contains "${CURDIR}" c1)%bool
      then [finding RequirdNoCurdirInImporting.self suite "Don't use ${CURDIR}"
              (Row.linenumber row)]
      else []
  | _ => []
  end.

(** Some cell of the table contains one of the tokens, letter case
    aside. *)
Definition table_mentions (tokens : list string) (table : Table.t) : bool :=
  existsb (fun row => existsb (fun cell => any_in tokens (PyStr.lower cell)) (Row.cells row))
    (Table.rows table).

Definition author_missing (suite : Suite.t) : Violation :=
  finding RequiredAutherInfo.self suite "Author name is needed" 1.

Definition contact_missing (suite : Suite.t) : Violation :=
  finding RequiredAutherInfo.self suite "Contact list is needed" 1.

(** What the author/contact rule files for one settings table. *)
Definition author_findings (suite : Suite.t) (table : Table.t) : list Violation :=
  ((if table_mentions RequiredAutherInfo.author_tokens table
    then [] else [author_missing suite])
   ++ (if table_mentions RequiredAutherInfo.contact_tokens table
       then [] else [contact_missing suite]))%list.

(** How often a message occurs among findings. *)
Definition count_message (msg : string) (l : list Violation) : nat :=
  length (filter (fun v => String.eqb (v_message v) msg) l).

Definition unknown_table (suite : Suite.t) (table : Table.t) : Violation :=
  finding InvalidTable.self suite ("Unknown table name '" ++ Table.name table ++ "'")
    (Table.linenumber table).

(** The line the documentation finding is anchored at. *)
Definition documentation_anchor (suite : Suite.t) : Z :=
  match setting_tables suite with
  | t :: _ => Table.linenumber t + 1
  | [] => 1
  end.

(** The scan for a settings row, row by row: where it stops and how. *)
Fixpoint scan_rows (key : string) (rows : list Row.t) : outcome signal :=
  match rows with
  | [] => Val Next
  | row :: rest =>
      match Row.cells row with
      | [] => Exc (IndexError OfRow)
      | c0 :: _ =>
          if String.eqb (PyStr.lower c0) key then Val Return
          else scan_rows key rest
      end
  end.

(** The body of the inner loop of [return_on_setting]. *)
Definition scan_body (key : string) (row : Row.t) : M signal :=
  c0 <- row_getitem row 0 ;;
  if String.eqb (PyStr.lower c0) key then ret Return else ret Next.

(** What [InvalidTable] files for one table, in the words of the
    specification, but for a newline at the end of the header text and
    for what [IGNORECASE] takes for a letter. *)
Definition header_findings (suite : Suite.t) (table : Table.t) : list Violation :=
  if recognized_header (chomp (Utf8.decode (Table.name table))) then []
  else [unknown_table suite table].

(** A word of a pattern: folded already, and without newline. *)
Fixpoint plain_word (w : string) : bool :=
  match w with
  | EmptyString => true
  | String a w' =>
      ((Re.sre_fold (N_of_ascii a) =? N_of_ascii a)%N
       && negb (N_of_ascii a =? Re.newline_code)%N
       && plain_word w')%bool
  end.

(** A literal matches at the front of [s] and [k] accepts the rest. *)
Definition lit_then (ignorecase : bool) (pos : nat) (s : list N)
    (k : nat -> list N -> bool) (w : string) : bool :=
  match Re.lit_match ignorecase w s with
  | Some rest => k (pos + String.length w)%nat rest
  | None => false
  end.

(** The row has a first cell. *)
Definition has_first_cell (row : Row.t) : bool :=
  match Row.cells row with [] => false | _ :: _ => true end.

(** ** Sample documents *)

Module Sample.

(** A settings table with an import from the parent directory. *)
Definition imports : Suite.t :=
  Suite.mk "5GC000165/login.robot" "login"
    [Table.mk SettingTable "Settings" 1
       [Row.mk ["Documentation"; "does X"] 2;
        Row.mk ["Resource"; "${CURDIR}/../common.robot"] 3;
        Row.mk ["resource"; "${CURDIR}/lower.robot"] 4;
        Row.mk ["Resource"; "common.robot"] 5]]
    [] [].

(** A [Resource] row with one cell, followed by a parent import. *)
Definition short_resource_row : Suite.t :=
  Suite.mk "5GC000165/login.robot" "login"
    [Table.mk SettingTable "Settings" 1
       [Row.mk ["Resource"] 2;
        Row.mk ["Resource"; "${CURDIR}/../common.robot"] 3]]
    [] [].

(** The only settings row is a single [Resource] cell. *)
Definition lone_resource : Suite.t :=
  Suite.mk "5GC000165/login.robot" "login"
    [Table.mk SettingTable "Settings" 1 [Row.mk ["Resource"] 2]] [] [].

(** The only settings row imports a library. *)
Definition library_only : Suite.t :=
  Suite.mk "5GC000165/login.robot" "login"
    [Table.mk OtherTable "Variables" 1 [];
     Table.mk SettingTable "Settings" 4 [Row.mk ["Library"; "Collections"] 5]]
    [] [].

(** A settings table whose one row has no cell. *)
Definition empty_row : Suite.t :=
  Suite.mk "5GC000165/login.robot" "login"
    [Table.mk SettingTable "Settings" 4 [Row.mk [] 5]]
    [] [Testcase.mk "Log in" 8].

(** No table and no test case. *)
Definition blank : Suite.t := Suite.mk "5GC000165/login.robot" "login" [] [] [].

(** [n] test cases, the one at index [i] on line [first + i]. *)
Fixpoint numbered (first : Z) (n : nat) : list Testcase.t :=
  match n with
  | O => []
  | S n' => Testcase.mk "Case" first :: numbered (first + 1) n'
  end.

(** Eleven test cases on lines 20 to 30, and no template. *)
Definition eleven : Suite.t :=
  Suite.mk "5GC000165/login.robot" "login"
    [Table.mk SettingTable "Settings" 1 [Row.mk ["Library"; "Collections"] 2]]
    [] (numbered 20 11).

(** The same eleven test cases in a data-driven suite. *)
Definition eleven_templated : Suite.t :=
  Suite.mk "5GC000165/login.robot" "login"
    [Table.mk SettingTable "Settings" 1 [Row.mk ["Test Template"; "Check"] 2]]
    [] (numbered 20 11).

(** Three test cases and no table. *)
Definition three : Suite.t :=
  Suite.mk "5GC000165/login.robot" "login" [] [] (numbered 20 3).

(** Two settings tables without rows. *)
Definition two_settings : Suite.t :=
  Suite.mk "5GC000165/login.robot" "login"
    [Table.mk SettingTable "Settings" 1 []; Table.mk SettingTable "Setting" 3 []]
    [] [].

(** One settings table that names who changed the file last. *)
Definition modified_by : Suite.t :=
  Suite.mk "5GC000165/login.robot" "login"
    [Table.mk SettingTable "Settings" 1
       [Row.mk ["Documentation"; "Modified: 1/1/2020 Jane Doe"] 2]]
    [] [].

(** A table whose header text ends in a newline. *)
Definition newline_header : Suite.t :=
  Suite.mk "5GC000165/login.robot" "login"
    [Table.mk SettingTable ("Settings" ++ String Re.newline EmptyString) 1 []]
    [] [].

(** The headers named in the specification. *)
Definition headers : Suite.t :=
  Suite.mk "5GC000165/login.robot" "login"
    [Table.mk SettingTable "Setting" 1 [];
     Table.mk OtherTable "Configuration" 3 [];
     Table.mk OtherTable "Test Cases" 5 [];
     Table.mk OtherTable "Keywords" 9 []]
    [] [].

(** A table whose header text starts with U+017F, the long s. *)
Definition long_s_header : Suite.t :=
  Suite.mk "5GC000165/login.robot" "login"
    [Table.mk SettingTable
       (String (ascii_of_nat 197) (String (ascii_of_nat 191) "ettings")) 1 []]
    [] [].

(** A table whose header text has U+0130, the dotted capital I, for its
    sixth letter. *)
Definition dotted_i_header : Suite.t :=
  Suite.mk "5GC000165/login.robot" "login"
    [Table.mk SettingTable
       ("Sett" ++ String (ascii_of_nat 196) (String (ascii_of_nat 176) "ngs")) 1 []]
    [] [].

End Sample.

(** * Properties *)

(** ** Strings *)

Section StringFacts.

Lemma replace_one_char (c : ascii) (s : string) :
  PyStr.replace (String c EmptyString) EmptyString s
  = PyStr.filter (fun d => negb (Ascii.eqb c d)) s.
Proof.
  unfold PyStr.replace.
  induction s as [|d s IH]; simpl; [reflexivity|].
  rewrite IH, andb_true_r.
  destruct (Ascii.eqb c d); reflexivity.
Qed.

Lemma normalize_name_spec (s : string) : normalize_name s = normalize_spec s.
Proof.
  unfold normalize_name. rewrite !replace_one_char.
  induction s as [|c s IH]; [reflexivity|].
  cbn [PyStr.filter normalize_spec]. unfold is_separator.
  rewrite (Ascii.eqb_sym c " "), (Ascii.eqb_sym c "_").
  destruct (Ascii.eqb " " c) eqn:E1; cbn [negb orb]; [exact IH|].
  cbn [PyStr.filter].
  destruct (Ascii.eqb "_" c) eqn:E2; cbn [negb orb]; [exact IH|].
  cbn [PyStr.lower]. now rewrite IH.
Qed.

Lemma same_name_sound (x y : string) :
  same_name x y -> normalize_spec x = normalize_spec y.
Proof.
  induction 1 as [|c x y Hc _ IH|c x y Hc _ IH|a b x y Hab Ha Hb _ IH]; simpl.
  - reflexivity.
  - now rewrite Hc.
  - now rewrite Hc.
  - now rewrite Ha, Hb, Hab, IH.
Qed.

Lemma same_name_empty_l (y : string) :
  normalize_spec y = EmptyString -> same_name EmptyString y.
Proof.
  induction y as [|d y IH]; simpl; intros H.
  - constructor.
  - destruct (is_separator d) eqn:E; [|discriminate].
    apply same_skip_r; auto.
Qed.

Lemma same_name_complete (x y : string) :
  normalize_spec x = normalize_spec y -> same_name x y.
Proof.
  revert y. induction x as [|c x IHx]; intros y H.
  - apply same_name_empty_l. now rewrite <- H.
  - simpl in H. destruct (is_separator c) eqn:Ec.
    + apply same_skip_l; auto.
    + induction y as [|d y IHy]; simpl in H; [discriminate|].
      destruct (is_separator d) eqn:Ed.
      * apply same_skip_r; auto.
      * injection H as Hcd Hxy. apply same_char; auto.
Qed.

Lemma contains_app_r (w a b : string) :
  PyStr.contains w b = true -> PyStr.contains w (a ++ b) = true.
Proof.
  intros H. induction a as [|c a IH]; simpl; [exact H|].
  rewrite IH. apply orb_true_r.
Qed.

Lemma startswith_app (w b : string) : PyStr.startswith w (w ++ b) = true.
Proof.
  induction w as [|c w IH]; simpl; [reflexivity|].
  now rewrite Ascii.eqb_refl, IH.
Qed.

Lemma contains_self_app (w b : string) : PyStr.contains w (w ++ b) = true.
Proof.
  destruct w as [|c w].
  - destruct b; reflexivity.
  - change (String c w ++ b) with (String c (w ++ b)).
    pose proof (startswith_app (String c w) b) as H.
    cbn [PyStr.contains]. cbn [append] in H. now rewrite H.
Qed.

End StringFacts.

(** ** [normalize_name] on any text *)

Section UnicodeFacts.

Open Scope N_scope.

Variable d : Unicode.db.

Lemma unicode_replace_one (c : N) (s : list N) :
  Unicode.replace [c] [] s = filter (fun x => negb (c =? x)) s.
Proof.
  unfold Unicode.replace.
  induction s as [|a s IH]; [reflexivity|].
  cbn [Unicode.replace_from Unicode.startswith length Nat.pred app filter].
  rewrite andb_true_r, IH. destruct (c =? a); reflexivity.
Qed.

Lemma unicode_normalize_eq (s : list N) :
  Unicode.normalize_name d s
  = Unicode.lower d (filter (fun c => negb (Unicode.is_separator c)) s).
Proof.
  unfold Unicode.normalize_name. rewrite !unicode_replace_one. f_equal.
  induction s as [|a s IH]; [reflexivity|].
  cbn [filter]. unfold Unicode.is_separator.
  rewrite (N.eqb_sym a Unicode.space), (N.eqb_sym a Unicode.underscore).
  destruct (Unicode.space =? a); cbn [negb orb filter]; [exact IH|].
  destruct (Unicode.underscore =? a); cbn [negb]; [exact IH|now rewrite IH].
Qed.

(** Without capital sigma a text is lowered code point by code point. *)
Lemma lower_from_plain (before s : list N) :
  ~ In Unicode.capital_sigma s ->
  Unicode.lower_from d before s = flat_map (Unicode.to_lower_full d) s.
Proof.
  revert before. induction s as [|c s IH]; intros before H; [reflexivity|].
  cbn [Unicode.lower_from flat_map].
  destruct (N.eqb_spec c Unicode.capital_sigma) as [->|_].
  - exfalso. apply H. now left.
  - rewrite IH; [reflexivity|]. intros Hin. apply H. now right.
Qed.

Lemma fold_pair (a b : N) :
  Unicode.ascii_fold a = Unicode.ascii_fold b ->
  a = b \/ (Unicode.is_upper a = true /\ b = a + 32)
  \/ (Unicode.is_upper b = true /\ a = b + 32).
Proof.
  unfold Unicode.ascii_fold.
  destruct (Unicode.is_upper a) eqn:Ea; destruct (Unicode.is_upper b) eqn:Eb; intros H.
  - left. lia.
  - right. left. auto.
  - right. right. auto.
  - now left.
Qed.

Lemma upper_is_ascii (a : N) :
  Unicode.is_upper a = true ->
  a + 32 < 128 /\ Unicode.is_upper (a + 32) = false /\ Unicode.is_lower (a + 32) = true
  /\ a <> Unicode.capital_sigma /\ a + 32 <> Unicode.capital_sigma.
Proof.
  unfold Unicode.is_upper, Unicode.is_lower, Unicode.capital_sigma. intros H.
  apply andb_true_iff in H as [H1 H2]. apply N.leb_le in H1, H2.
  repeat split; try lia.
  - destruct (N.leb_spec 65 (a + 32)); [|lia].
    destruct (N.leb_spec (a + 32) 90); [lia|reflexivity].
  - destruct (N.leb_spec 97 (a + 32)); [|lia].
    destruct (N.leb_spec (a + 32) 122); [reflexivity|lia].
Qed.

Hypothesis facts : Unicode.ascii_facts d.

(** Code points that differ by ASCII case only look the same to
    [str.lower]. *)
Lemma fold_pair_tables (a b : N) :
  Unicode.ascii_fold a = Unicode.ascii_fold b ->
  (a =? Unicode.capital_sigma) = (b =? Unicode.capital_sigma)
  /\ Unicode.cased d a = Unicode.cased d b
  /\ Unicode.case_ignorable d a = Unicode.case_ignorable d b
  /\ Unicode.to_lower_full d a = Unicode.to_lower_full d b.
Proof.
  destruct facts as (Hup & Hlow & Hcased).
  assert (Hone : forall u, Unicode.is_upper u = true ->
            (u =? Unicode.capital_sigma) = (u + 32 =? Unicode.capital_sigma)
            /\ Unicode.cased d u = Unicode.cased d (u + 32)
            /\ Unicode.case_ignorable d u = Unicode.case_ignorable d (u + 32)
            /\ Unicode.to_lower_full d u = Unicode.to_lower_full d (u + 32)).
  { intros u Hu. destruct (upper_is_ascii u Hu) as (H1 & H2 & H3 & H4 & H5).
    destruct (Hcased u) as [Hc1 Hi1]; [now rewrite Hu|].
    destruct (Hcased (u + 32)) as [Hc2 Hi2]; [now rewrite H3, orb_true_r|].
    rewrite Hc1, Hc2, Hi1, Hi2, (Hup u Hu), (Hlow (u + 32) H1 H2).
    destruct (N.eqb_spec u Unicode.capital_sigma); [contradiction|].
    destruct (N.eqb_spec (u + 32) Unicode.capital_sigma); [contradiction|].
    auto. }
  intros H. destruct (fold_pair a b H) as [->|[[Ha ->]|[Hb ->]]].
  - auto.
  - apply Hone, Ha.
  - destruct (Hone b Hb) as (H1 & H2 & H3 & H4). auto.
Qed.

Let alike (a b : N) : Prop := Unicode.ascii_fold a = Unicode.ascii_fold b.

Lemma next_is_cased_alike (s s' : list N) :
  Forall2 alike s s' -> Unicode.next_is_cased d s = Unicode.next_is_cased d s'.
Proof.
  unfold Unicode.next_is_cased.
  induction 1 as [|a b s s' Hab _ IH]; [reflexivity|].
  destruct (fold_pair_tables a b Hab) as (_ & Hc & Hi & _).
  cbn [Unicode.first_significant]. rewrite Hi.
  destruct (Unicode.case_ignorable d b); [exact IH|exact Hc].
Qed.

Lemma lower_from_alike (s s' : list N) :
  Forall2 alike s s' ->
  forall before before', Forall2 alike before before' ->
  Unicode.lower_from d before s = Unicode.lower_from d before' s'.
Proof.
  induction 1 as [|a b s s' Hab Hs IH]; intros before before' Hb; [reflexivity|].
  destruct (fold_pair_tables a b Hab) as (Hsig & _ & _ & Hlow).
  cbn [Unicode.lower_from]. rewrite Hsig, Hlow.
  rewrite (IH (a :: before) (b :: before')) by (constructor; assumption).
  unfold Unicode.handle_capital_sigma.
  now rewrite (next_is_cased_alike Hb), (next_is_cased_alike Hs).
Qed.

Lemma same_name_alike (x y : list N) :
  Unicode.same_name x y ->
  Forall2 alike (filter (fun c => negb (Unicode.is_separator c)) x)
    (filter (fun c => negb (Unicode.is_separator c)) y).
Proof.
  induction 1 as [|c x y Hc _ IH|c x y Hc _ IH|a b x y Hab Ha Hb _ IH]; cbn [filter].
  - constructor.
  - now rewrite Hc.
  - now rewrite Hc.
  - rewrite Ha, Hb. cbn [negb]. now constructor.
Qed.

Lemma unicode_same_name_sound (x y : list N) :
  Unicode.same_name x y -> Unicode.normalize_name d x = Unicode.normalize_name d y.
Proof.
  intros H. rewrite !unicode_normalize_eq. unfold Unicode.lower.
  apply lower_from_alike; [now apply same_name_alike|constructor].
Qed.

Lemma fold_code (c : ascii) :
  Unicode.ascii_fold (N_of_ascii c) = N_of_ascii (PyStr.lower_char c).
Proof. destruct c as [[] [] [] [] [] [] [] []]; reflexivity. Qed.

Lemma separator_code (c : ascii) :
  Unicode.is_separator (N_of_ascii c) = is_separator c.
Proof. destruct c as [[] [] [] [] [] [] [] []]; reflexivity. Qed.

Lemma lower_ascii_code (c : ascii) :
  N_of_ascii c < 128 ->
  Unicode.to_lower_full d (N_of_ascii c) = [N_of_ascii (PyStr.lower_char c)].
Proof.
  intros Hc. destruct facts as (Hup & Hlow & _). rewrite <- fold_code.
  unfold Unicode.ascii_fold.
  destruct (Unicode.is_upper (N_of_ascii c)) eqn:E; [now apply Hup|now apply Hlow].
Qed.

(** On ASCII text the two embeddings of [normalize_name] agree. *)
Lemma unicode_normalize_ascii (s : string) :
  Utf8.is_ascii s = true ->
  Unicode.normalize_name d (Utf8.codes s) = Utf8.codes (normalize_name s).
Proof.
  intros H. rewrite unicode_normalize_eq, normalize_name_spec. unfold Unicode.lower.
  generalize (@nil N).
  induction s as [|c s IH]; intros before; [reflexivity|].
  cbn [Utf8.is_ascii] in H. apply andb_true_iff in H as [Hc Hs].
  apply N.ltb_lt in Hc.
  change (Utf8.codes (String c s)) with (N_of_ascii c :: Utf8.codes s).
  cbn [filter normalize_spec]. rewrite separator_code.
  destruct (is_separator c); cbn [negb]; [now apply IH|].
  cbn [Unicode.lower_from].
  destruct (N.eqb_spec (N_of_ascii c) Unicode.capital_sigma) as [E|_].
  - unfold Unicode.capital_sigma in E. lia.
  - rewrite lower_ascii_code by exact Hc. cbn [app].
    change (Utf8.codes (String (PyStr.lower_char c) (normalize_spec s)))
      with (N_of_ascii (PyStr.lower_char c) :: Utf8.codes (normalize_spec s)).
    f_equal. now apply IH.
Qed.

End UnicodeFacts.

Lemma excerpt_ascii_facts : Unicode.ascii_facts Unicode.excerpt.
Proof.
  unfold Unicode.ascii_facts, Unicode.excerpt; cbn [Unicode.to_lower_full
    Unicode.cased Unicode.case_ignorable].
  split; [|split].
  - intros c Hc. now rewrite Hc.
  - intros c Hc Hu. rewrite Hu.
    unfold Unicode.in_range.
    destruct (N.leb_spec 192 c); [lia|]. destruct (N.leb_spec 913 c); [lia|].
    cbn [andb]. destruct (N.eqb_spec c 304); [lia|].
    destruct (N.eqb_spec c 8490); [lia|reflexivity].
  - intros c Hc. split.
    + now rewrite Hc.
    + assert (c < 128)%N as Hlt.
      { unfold Unicode.is_upper, Unicode.is_lower in Hc.
        apply orb_true_iff in Hc as [Hc|Hc]; apply andb_true_iff in Hc as [_ Hc];
          apply N.leb_le in Hc; lia. }
      assert (39 <> c /\ 46 <> c /\ 58 <> c /\ 94 <> c /\ 96 <> c)%N as (H1&H2&H3&H4&H5).
      { unfold Unicode.is_upper, Unicode.is_lower in Hc.
        apply orb_true_iff in Hc as [Hc|Hc]; apply andb_true_iff in Hc as [Ha Hb];
          apply N.leb_le in Ha, Hb; repeat split; lia. }
      repeat match goal with
             | |- context [(c =? ?n)%N] =>
                 destruct (N.eqb_spec c n); [lia|]
             end.
      reflexivity.
Qed.

(** C7, as the function has it: for every text, [normalize_name] removes
    every space and every underscore and lowers what remains with
    [str.lower], and does nothing else; two texts that differ only by
    spaces, underscores and the case of ASCII letters have the same normal
    form, as ["Smoke Test"], ["smoke_test"] and ["SmokeTest"] do, and
    for ASCII texts only such pairs have. *)
Theorem normalize_name_on_text :
  forall d,
    Unicode.ascii_facts d ->
    (forall x,
       Unicode.normalize_name d x
       = Unicode.lower d (filter (fun c => negb (Unicode.is_separator c)) x))
    /\ (forall x y,
          Unicode.same_name x y ->
          Unicode.normalize_name d x = Unicode.normalize_name d y)
    /\ (forall s,
          Utf8.is_ascii s = true ->
          Unicode.normalize_name d (Utf8.codes s) = Utf8.codes (normalize_name s)
          /\ normalize_name s = normalize_spec s)
    /\ (forall x y,
          Utf8.is_ascii x = true -> Utf8.is_ascii y = true ->
          (same_name x y <-> normalize_name x = normalize_name y))
    /\ Unicode.normalize_name d (Utf8.codes "Smoke Test") = Utf8.codes "smoketest"
    /\ Unicode.normalize_name d (Utf8.codes "smoke_test") = Utf8.codes "smoketest"
    /\ Unicode.normalize_name d (Utf8.codes "SmokeTest") = Utf8.codes "smoketest".
Proof.
  intros d Hd.
  split; [apply unicode_normalize_eq|].
  split; [intros x y; now apply unicode_same_name_sound|].
  split; [intros s Hs; split;
          [now apply unicode_normalize_ascii|apply normalize_name_spec]|].
  split.
  { intros x y _ _. rewrite !normalize_name_spec. split.
    - apply same_name_sound.
    - apply same_name_complete. }
  repeat split; now rewrite unicode_normalize_ascii.
Qed.

Lemma normalize_name_on_text_witness :
  Unicode.ascii_facts Unicode.excerpt
  /\ Unicode.same_name (Utf8.codes "Smoke Test") (Utf8.codes "smoke_test")
  /\ Unicode.normalize_name Unicode.excerpt (Utf8.codes "Smoke Test")
     = Unicode.normalize_name Unicode.excerpt (Utf8.codes "smoke_test").
Proof.
  assert (H : Unicode.same_name (Utf8.codes "Smoke Test") (Utf8.codes "smoke_test")).
  { cbn. repeat first
      [ apply Unicode.same_nil
      | apply Unicode.same_char; [reflexivity|reflexivity|reflexivity|]
      | apply Unicode.same_skip_l; [reflexivity|];
        apply Unicode.same_skip_r; [reflexivity|] ]. }
  split; [exact excerpt_ascii_facts|]. split; [exact H|].
  exact (proj1 (proj2 (normalize_name_on_text excerpt_ascii_facts))
           (Utf8.codes "Smoke Test") (Utf8.codes "smoke_test") H).
Defined.

(** C7 as stated fails beyond ASCII.  The Greek texts alpha-sigma in
    capitals and in small letters differ only by letter case (the small
    letters are the lower-case forms of the capitals, one by one), yet
    their normal forms differ: a capital sigma that ends a word is
    lowered to the final sigma. *)
Lemma normalize_name_counterexample :
  Unicode.to_lower_full Unicode.excerpt 913 = [945%N]
  /\ Unicode.to_lower_full Unicode.excerpt 931 = [963%N]
  /\ Unicode.normalize_name Unicode.excerpt [913; 931]%N = [945; 962]%N
  /\ Unicode.normalize_name Unicode.excerpt [945; 963]%N = [945; 963]%N.
Proof.
  repeat split.
Qed.

(** ** The rule monad *)

Section MonadFacts.

Lemma bind_val {A B} (c : M A) (f : A -> M B) (k k' : Sink) (a : A) :
  c k = (Val a, k') -> bind c f k = f a k'.
Proof. unfold bind. now intros ->. Qed.

Lemma bind_exc {A B} (c : M A) (f : A -> M B) (k k' : Sink) (e : exn) :
  c k = (Exc e, k') -> bind c f k = (Exc e, k').
Proof. unfold bind. now intros ->. Qed.

Lemma appends_ret {A} (a : A) : appends (ret a).
Proof. intros k. unfold ret, result, findings. cbn. now rewrite app_nil_r. Qed.

Lemma appends_raise {A} (e : exn) : appends (@raise A e).
Proof. intros k. unfold raise, result, findings. cbn. now rewrite app_nil_r. Qed.

Lemma appends_report self suite msg line : appends (report self suite msg line).
Proof. intros k. reflexivity. Qed.

Lemma appends_bind {A B} (c : M A) (f : A -> M B) :
  appends c -> (forall a, appends (f a)) -> appends (bind c f).
Proof.
  intros Hc Hf k. unfold result, findings, bind.
  rewrite (Hc k), (Hc []). cbn [app].
  destruct (result c) as [a|e].
  - rewrite (Hf a (k ++ findings c)%list), (Hf a (findings c)).
    cbn [fst snd]. now rewrite app_assoc.
  - reflexivity.
Qed.

Lemma appends_for_each {A} (body : A -> M signal) (l : list A) :
  (forall x, appends (body x)) -> appends (for_each l body).
Proof.
  intros Hb. induction l as [|x l IH]; cbn [for_each].
  - apply appends_ret.
  - apply appends_bind; [apply Hb|].
    intros [| |]; auto using appends_ret.
Qed.

Lemma appends_for_acc {A S} (body : A -> S -> M (signal * S)) (l : list A) :
  (forall x st, appends (body x st)) -> forall st, appends (for_acc l body st).
Proof.
  intros Hb. induction l as [|x l IH]; intros st; cbn [for_acc].
  - apply appends_ret.
  - apply appends_bind; [apply Hb|].
    intros [[| |] st']; cbn [fst snd]; auto using appends_ret.
Qed.

Lemma appends_row_getitem row i : appends (row_getitem row i).
Proof.
  unfold row_getitem. destruct (py_index _ _); auto using appends_ret, appends_raise.
Qed.

Lemma appends_list_getitem {A} (l : list A) i : appends (list_getitem l i).
Proof.
  unfold list_getitem. destruct (py_index _ _); auto using appends_ret, appends_raise.
Qed.

End MonadFacts.

Create HintDb appends.

#[local] Hint Resolve appends_ret appends_raise appends_report appends_row_getitem
  appends_list_getitem : appends.

(** Break a rule down to its statements. *)
Ltac appends_step :=
  first
    [ apply appends_bind; [|intros ?]
    | apply appends_for_each; intros ?
    | apply appends_for_acc; intros ? ?
    | match goal with |- appends (if ?b then _ else _) => destruct b end
    | match goal with |- appends (match ?s with Next => _ | Break => _ | Return => _ end) =>
        destruct s end
    | solve [auto with appends] ].

Ltac appends_tac := repeat appends_step.

(** ** Duplicate names *)

Section Duplicates.

Variables (A : Type) (name : A -> string) (v : A -> Violation).
Variable body : A -> list string -> M (signal * list string).

Let norm (x : A) : string := normalize_name (name x).

(** One turn of the loop: report if the name is cached, then cache it. *)
Hypothesis body_step : forall x cache k,
  body x cache k
  = (Val (Next, (cache ++ [norm x])%list),
     (k ++ (if PyStr.mem (norm x) cache then [v x] else []))%list).

Let entry (l : list A) (i : nat) : list Violation :=
  match nth_error l i with
  | Some x => if seen_before (map norm l) i then [v x] else []
  | None => []
  end.

Lemma entry_middle (pre l : list A) (x : A) :
  entry (pre ++ x :: l) (length pre)
  = if PyStr.mem (norm x) (map norm pre) then [v x] else [].
Proof.
  unfold entry, seen_before.
  rewrite nth_error_app2, Nat.sub_diag by lia. cbn [nth_error].
  rewrite map_app, nth_error_app2 by (rewrite length_map; lia).
  rewrite length_map, Nat.sub_diag. cbn [map nth_error].
  rewrite <- (length_map norm pre) at 1.
  rewrite firstn_app, Nat.sub_diag, firstn_all. cbn [firstn].
  now rewrite app_nil_r.
Qed.

Lemma walk_from (l pre : list A) (k : Sink) :
  for_acc l body (map norm pre) k
  = (Val (Next, map norm (pre ++ l)),
     (k ++ flat_map (entry (pre ++ l)) (seq (length pre) (length l)))%list).
Proof.
  revert pre k. induction l as [|x l IH]; intros pre k.
  - cbn. now rewrite !app_nil_r.
  - cbn [for_acc]. erewrite bind_val by apply body_step. cbn [fst snd].
    replace (map norm pre ++ [norm x])%list with (map norm (pre ++ [x]))
      by (now rewrite map_app).
    rewrite IH. rewrite <- app_assoc. cbn [app].
    rewrite length_app. cbn [length]. rewrite Nat.add_1_r.
    cbn [seq flat_map]. rewrite entry_middle.
    now rewrite <- app_assoc.
Qed.

Lemma walk_all (l : list A) (k : Sink) :
  (for_acc l body [] ;; ret tt) k = (Val tt, (k ++ duplicates_spec name v l)%list).
Proof.
  erewrite bind_val by apply (walk_from l [] k). reflexivity.
Qed.

End Duplicates.


Lemma keyword_body_step suite x cache k :
  DuplicateKeywordNames.keyword_body suite x cache k
  = (Val (Next, (cache ++ [normalize_name (Keyword.name x)])%list),
     (k ++ (if PyStr.mem (normalize_name (Keyword.name x)) cache
            then [keyword_finding suite x] else []))%list).
Proof.
  unfold DuplicateKeywordNames.keyword_body.
  destruct (PyStr.mem _ cache); cbn; [reflexivity|now rewrite app_nil_r].
Qed.

Lemma testcase_body_step suite x cache k :
  DuplicateTestNames.testcase_body suite x cache k
  = (Val (Next, (cache ++ [normalize_name (Testcase.name x)])%list),
     (k ++ (if PyStr.mem (normalize_name (Testcase.name x)) cache
            then [testcase_finding suite x] else []))%list).
Proof.
  unfold DuplicateTestNames.testcase_body.
  destruct (PyStr.mem _ cache); cbn; [reflexivity|now rewrite app_nil_r].
Qed.



(** ** Loops over the rows of the settings tables *)

Section LoopFacts.

Variables (A : Type) (body : A -> M signal).

Lemma for_each_all_next (out : A -> list Violation) (l : list A) :
  (forall x, In x l -> forall k, body x k = (Val Next, (k ++ out x)%list)) ->
  forall k, for_each l body k = (Val Next, (k ++ flat_map out l)%list).
Proof.
  induction l as [|x l IH]; intros H k.
  - cbn. now rewrite app_nil_r.
  - cbn [for_each flat_map]. erewrite bind_val by (apply H; now left).
    rewrite IH by (intros; apply H; now right).
    now rewrite app_assoc.
Qed.

End LoopFacts.

Section Loops.

Lemma py_index_nonneg {A} (l : list A) (i : Z) :
  0 <= i -> py_index l i = nth_error l (Z.to_nat i).
Proof.
  intros Hi. unfold py_index.
  destruct (Z.leb_spec 0 i); [|lia]. cbn [andb].
  destruct (Z.ltb_spec i (Z.of_nat (length l))); [reflexivity|].
  destruct (Z.ltb_spec i 0); [lia|]. rewrite andb_false_r.
  symmetry. apply nth_error_None. lia.
Qed.

Lemma row_getitem_0 (row : Row.t) (k : Sink) :
  row_getitem row 0 k
  = match Row.cells row with
    | c0 :: _ => (Val c0, k)
    | [] => (Exc (IndexError OfRow), k)
    end.
Proof.
  unfold row_getitem. rewrite py_index_nonneg by lia.
  destruct (Row.cells row); reflexivity.
Qed.

Lemma row_getitem_1 (row : Row.t) (k : Sink) :
  row_getitem row 1 k
  = match Row.cells row with
    | _ :: c1 :: _ => (Val c1, k)
    | _ => (Exc (IndexError OfRow), k)
    end.
Proof.
  unfold row_getitem. rewrite py_index_nonneg by lia.
  destruct (Row.cells row) as [|c0 [|c1 rest]]; reflexivity.
Qed.

Variable body : Row.t -> M signal.

(** The body never says [break]. *)
Hypothesis body_no_break : forall row k, fst (body row k) <> Val Break.

Lemma for_each_app (l1 l2 : list Row.t) (k : Sink) :
  for_each (l1 ++ l2) body k
  = match for_each l1 body k with
    | (Val Next, k') => for_each l2 body k'
    | other => other
    end.
Proof.
  revert k. induction l1 as [|x l1 IH]; intros k; [reflexivity|].
  cbn [app for_each]. unfold bind.
  pose proof (body_no_break x k) as Hnb.
  destruct (body x k) as [[[| |]|e] k']; cbn [fst] in Hnb.
  - apply IH.
  - congruence.
  - reflexivity.
  - reflexivity.
Qed.

(** The two nested loops [for table in suite.tables: if isinstance(table,
    SettingTable): for row in table.rows] visit the rows of the settings
    tables in order. *)
Lemma nested_loops (tables : list Table.t) (k : Sink) :
  for_each tables (fun table =>
    if isinstance_SettingTable (Table.class table)
    then for_each (Table.rows table) body
    else ret Next) k
  = for_each
      (flat_map Table.rows
         (filter (fun t => isinstance_SettingTable (Table.class t)) tables))
      body k.
Proof.
  revert k. induction tables as [|t tables IH]; intros k; [reflexivity|].
  cbn [for_each filter]. unfold bind at 1.
  destruct (isinstance_SettingTable (Table.class t)).
  - cbn [flat_map]. rewrite for_each_app.
    destruct (for_each (Table.rows t) body k) as [[[| |]|e] k'] eqn:E.
    + apply IH.
    + exfalso. clear -E body_no_break.
      revert k E. induction (Table.rows t) as [|x l IHl]; intros k E.
      * discriminate.
      * cbn [for_each] in E. unfold bind in E.
        destruct (body x k) as [[[| |]|e] k2]; try discriminate.
        now apply (IHl k2).
    + reflexivity.
    + reflexivity.
  - cbn. apply IH.
Qed.

Lemma for_each_raises (e : exn) (l : list Row.t) (bad : Row.t) :
  (forall row k, fst (body row k) = Val Next \/ fst (body row k) = Exc e) ->
  In bad l -> (forall k, fst (body bad k) = Exc e) ->
  forall k, fst (for_each l body k) = Exc e.
Proof.
  intros Hb Hin Hbad. induction l as [|x l IH]; intros k; [contradiction|].
  cbn [for_each]. unfold bind.
  destruct (Hb x k) as [Hx|Hx]; destruct (body x k) as [[sg|e'] k'] eqn:E;
    cbn [fst] in Hx; try discriminate.
  - injection Hx as ->. destruct Hin as [->|Hin].
    + specialize (Hbad k). rewrite E in Hbad. discriminate.
    + now apply IH.
  - injection Hx as ->. reflexivity.
Qed.

End Loops.

Lemma scan_body_eq key row k :
  scan_body key row k
  = match Row.cells row with
    | [] => (Exc (IndexError OfRow), k)
    | c0 :: _ => if String.eqb (PyStr.lower c0) key then (Val Return, k) else (Val Next, k)
    end.
Proof.
  unfold scan_body, bind. rewrite row_getitem_0.
  destruct (Row.cells row) as [|c0 rest]; [reflexivity|].
  destruct (String.eqb _ key); reflexivity.
Qed.

Lemma return_on_setting_eq (key : string) (suite : Suite.t) (k : Sink) :
  return_on_setting key suite k = (scan_rows key (setting_rows suite), k).
Proof.
  unfold return_on_setting.
  change (for_each (Suite.tables suite) (fun table =>
            if isinstance_SettingTable (Table.class table)
            then for_each (Table.rows table) (scan_body key)
            else ret Next) k = (scan_rows key (setting_rows suite), k)).
  rewrite nested_loops.
  - fold (setting_tables suite). fold (setting_rows suite).
    induction (setting_rows suite) as [|row rows IH]; [reflexivity|].
    cbn [for_each scan_rows]. unfold bind. rewrite scan_body_eq.
    destruct (Row.cells row) as [|c0 rest]; [reflexivity|].
    destruct (String.eqb _ key); [reflexivity|exact IH].
  - intros row k0. rewrite scan_body_eq.
    destruct (Row.cells row) as [|c0 rest]; [discriminate|].
    destruct (String.eqb _ key); discriminate.
Qed.

Lemma scan_rows_present (key : string) (rows : list Row.t) :
  forallb (fun row => match Row.cells row with [] => false | _ :: _ => true end) rows = true ->
  scan_rows key rows
  = Val (if existsb (first_cell_is key) rows then Return else Next).
Proof.
  induction rows as [|row rows IH]; [reflexivity|].
  cbn [forallb existsb scan_rows]. unfold first_cell_is at 1.
  destruct (Row.cells row) as [|c0 rest]; [discriminate|].
  cbn [andb]. intros H. destruct (String.eqb _ key); [reflexivity|].
  cbn [orb]. now apply IH.
Qed.

Lemma scan_rows_found (key : string) (rows : list Row.t) :
  existsb (first_cell_is key) rows = true ->
  scan_rows key rows = Val Return \/ scan_rows key rows = Exc (IndexError OfRow).
Proof.
  induction rows as [|row rows IH]; [discriminate|].
  cbn [existsb scan_rows]. unfold first_cell_is at 1.
  destruct (Row.cells row) as [|c0 rest]; [now right|].
  destruct (String.eqb _ key); [now left|].
  cbn [orb]. exact IH.
Qed.

Lemma rows_indexable_present (suite : Suite.t) :
  rows_indexable suite = true -> first_cells_present suite = true.
Proof.
  unfold rows_indexable, first_cells_present.
  induction (setting_rows suite) as [|row rows IH]; [reflexivity|].
  cbn [forallb]. intros H. apply andb_true_iff in H as [H1 H2].
  rewrite IH by assumption. unfold row_indexable in H1.
  destruct (Row.cells row); [discriminate|reflexivity].
Qed.

(** ** The import rule *)

Lemma curdir_row_body_eq suite row k :
  RequirdNoCurdirInImporting.row_body suite row k
  = match Row.cells row with
    | [] => (Exc (IndexError OfRow), k)
    | c0 :: rest =>
        if String.eqb c0 "Resource" then
          match rest with
          | [] => (Exc (IndexError OfRow), k)
          | c1 :: _ =>
              if PyStr.contains "${CURDIR}" c1
              then (Val Next,
                    (k ++ [finding RequirdNoCurdirInImporting.self suite
                             "Don't use ${CURDIR}" (Row.linenumber row)])%list)
              else (Val Next, k)
          end
        else (Val Next, k)
    end.
Proof.
  unfold RequirdNoCurdirInImporting.row_body, bind.
  rewrite row_getitem_0.
  destruct (Row.cells row) as [|c0 [|c1 rest]] eqn:E; [reflexivity| |];
    (destruct (String.eqb c0 "Resource"); [|reflexivity]);
    rewrite row_getitem_1, E; [reflexivity|].
  destruct (PyStr.contains "${CURDIR}" c1); reflexivity.
Qed.

Lemma curdir_row_body_cases suite row k :
  fst (RequirdNoCurdirInImporting.row_body suite row k) = Val Next
  \/ fst (RequirdNoCurdirInImporting.row_body suite row k) = Exc (IndexError OfRow).
Proof.
  rewrite curdir_row_body_eq.
  destruct (Row.cells row) as [|c0 [|c1 rest]]; [now right| |];
    destruct (String.eqb c0 "Resource"); auto.
  destruct (PyStr.contains "${CURDIR}" c1); auto.
Qed.

Lemma curdir_row_body_indexable suite row k :
  row_indexable row = true ->
  RequirdNoCurdirInImporting.row_body suite row k
  = (Val Next, (k ++ curdir_findings suite row)%list).
Proof.
  rewrite curdir_row_body_eq. unfold row_indexable, curdir_findings.
  destruct (Row.cells row) as [|c0 [|c1 rest]]; [discriminate| |].
  - destruct (String.eqb c0 "Resource"); [discriminate|].
    intros _. now rewrite app_nil_r.
  - intros _. destruct (String.eqb c0 "Resource"); cbn [andb].
    + destruct (PyStr.contains "${CURDIR}" c1); [reflexivity|now rewrite app_nil_r].
    + now rewrite app_nil_r.
Qed.

Lemma curdir_apply_eq suite k :
  RequirdNoCurdirInImporting.apply suite k
  = match for_each (setting_rows suite) (RequirdNoCurdirInImporting.row_body suite) k with
    | (Val _, k') => (Val tt, k')
    | (Exc e, k') => (Exc e, k')
    end.
Proof.
  unfold RequirdNoCurdirInImporting.apply, bind.
  rewrite nested_loops; [reflexivity|].
  intros row k0. destruct (curdir_row_body_cases suite row k0) as [H|H];
    rewrite H; discriminate.
Qed.

Lemma curdir_apply_indexable suite k :
  rows_indexable suite = true ->
  RequirdNoCurdirInImporting.apply suite k
  = (Val tt, (k ++ flat_map (curdir_findings suite) (setting_rows suite))%list).
Proof.
  intros H. rewrite curdir_apply_eq.
  rewrite (for_each_all_next _ (curdir_findings suite)); [reflexivity|].
  intros row Hin k0. apply curdir_row_body_indexable.
  unfold rows_indexable in H. rewrite forallb_forall in H. now apply H.
Qed.

Lemma curdir_apply_raises suite row k :
  In row (setting_rows suite) -> Row.cells row = ["Resource"] ->
  fst (RequirdNoCurdirInImporting.apply suite k) = Exc (IndexError OfRow).
Proof.
  intros Hin Hrow. rewrite curdir_apply_eq.
  assert (Hbad : forall k0,
             fst (RequirdNoCurdirInImporting.row_body suite row k0)
             = Exc (IndexError OfRow))
    by (intros k0; rewrite curdir_row_body_eq, Hrow; reflexivity).
  pose proof (for_each_raises _ _ _ (curdir_row_body_cases suite) Hin Hbad k) as H.
  destruct (for_each _ _ k) as [[sg|e] k']; cbn [fst] in H |- *; congruence.
Qed.

(** ** The documentation rule and the test-case limit *)

Lemma documentation_loop (tables : list Table.t) (line : Z) (k : Sink) :
  for_acc tables
    (fun table (linenum : Z) =>
       if isinstance_SettingTable (Table.class table)
       then ret (Break, Table.linenumber table + 1)
       else ret (Next, linenum))
    line k
  = (Val (Next,
          match filter (fun t => isinstance_SettingTable (Table.class t)) tables with
          | t :: _ => Table.linenumber t + 1
          | [] => line
          end), k).
Proof.
  induction tables as [|t tables IH]; [reflexivity|].
  cbn [for_acc filter]. unfold bind.
  destruct (isinstance_SettingTable (Table.class t)); cbn; [reflexivity|exact IH].
Qed.

Lemma documentation_apply_eq suite k :
  RequireSuiteDocumentation.apply suite k
  = match scan_rows "documentation" (setting_rows suite) with
    | Val Return => (Val tt, k)
    | Val _ =>
        (Val tt,
         (k ++ [finding RequireSuiteDocumentation.self suite "No suite documentation"
                  (documentation_anchor suite)])%list)
    | Exc e => (Exc e, k)
    end.
Proof.
  unfold RequireSuiteDocumentation.apply, bind.
  rewrite return_on_setting_eq.
  destruct (scan_rows "documentation" (setting_rows suite)) as [[| |]|e];
    try reflexivity; rewrite documentation_loop; reflexivity.
Qed.

Lemma too_many_apply_eq tm suite k :
  TooManyTestCases.apply tm suite k
  = match scan_rows "test template" (setting_rows suite) with
    | Val Return => (Val tt, k)
    | Val _ =>
        let n := Z.of_nat (length (Suite.testcases suite)) in
        if n >? TooManyTestCases.max_allowed tm then
          match py_index (Suite.testcases suite) (TooManyTestCases.max_allowed tm) with
          | Some tc =>
              (Val tt,
               (k ++ [finding TooManyTestCases.info suite
                        (TooManyTestCases.message n (TooManyTestCases.max_allowed tm))
                        (Testcase.linenumber tc)])%list)
          | None => (Exc (IndexError OfList), k)
          end
        else (Val tt, k)
    | Exc e => (Exc e, k)
    end.
Proof.
  unfold TooManyTestCases.apply, bind.
  rewrite return_on_setting_eq.
  destruct (scan_rows "test template" (setting_rows suite)) as [[| |]|e];
    try reflexivity; cbn zeta;
    (destruct (_ >? _); [|reflexivity]);
    unfold list_getitem; destruct (py_index _ _); reflexivity.
Qed.

Lemma message_mentions (count allowed : Z) :
  PyStr.contains (PyStr.of_int count) (TooManyTestCases.message count allowed) = true
  /\ PyStr.contains (PyStr.of_int allowed) (TooManyTestCases.message count allowed) = true.
Proof.
  unfold TooManyTestCases.message. split.
  - apply contains_app_r, contains_self_app.
  - apply contains_app_r, contains_app_r, contains_app_r, contains_self_app.
Qed.

(** ** The rules that index rows *)

(** C9. In a document where every settings-table row has a first cell,
    and a second one when the first is [Resource], no rule runs into the
    out-of-range branch of a row lookup: the import rule and the
    documentation rule end normally, and so does the test-case limit for
    every limit that is not negative; a settings-table row that consists
    of the one cell [Resource] makes the import rule raise [IndexError]
    instead, as it does, without any finding, on the document that has
    this row alone. *)
Theorem row_indexing_safety :
  (forall suite tm k,
     rows_indexable suite = true ->
     fst (RequirdNoCurdirInImporting.apply suite k) = Val tt
     /\ fst (RequireSuiteDocumentation.apply suite k) = Val tt
     /\ fst (TooManyTestCases.apply tm suite k) <> Exc (IndexError OfRow)
     /\ (0 <= TooManyTestCases.max_allowed tm ->
         fst (TooManyTestCases.apply tm suite k) = Val tt))
  /\ (forall suite row k,
     In row (setting_rows suite) -> Row.cells row = ["Resource"] ->
     fst (RequirdNoCurdirInImporting.apply suite k) = Exc (IndexError OfRow))
  /\ RequirdNoCurdirInImporting.apply Sample.lone_resource []
     = (Exc (IndexError OfRow), []).
Proof.
  split; [|split; [exact curdir_apply_raises|reflexivity]].
  intros suite tm k H.
  pose proof (rows_indexable_present suite H) as Hp.
  split; [now rewrite curdir_apply_indexable|].
  rewrite documentation_apply_eq, too_many_apply_eq.
  rewrite !scan_rows_present by exact Hp.
  split; [|split].
  - destruct (existsb _ _); reflexivity.
  - destruct (existsb _ _); [discriminate|]. cbn zeta.
    destruct (_ >? _); [|discriminate].
    destruct (py_index _ _); discriminate.
  - intros Hm. destruct (existsb _ _); [reflexivity|]. cbn zeta.
    destruct (Z.gtb_spec (Z.of_nat (length (Suite.testcases suite)))
                (TooManyTestCases.max_allowed tm)) as [Hgt|Hle]; [|reflexivity].
    rewrite py_index_nonneg by exact Hm.
    destruct (nth_error _ _) eqn:E; [reflexivity|].
    apply nth_error_None in E. lia.
Qed.

Lemma row_indexing_safety_witness :
  rows_indexable Sample.imports = true
  /\ fst (RequirdNoCurdirInImporting.apply Sample.imports []) = Val tt
  /\ In (Row.mk ["Resource"] 2) (setting_rows Sample.short_resource_row)
  /\ fst (RequirdNoCurdirInImporting.apply Sample.short_resource_row [])
     = Exc (IndexError OfRow).
Proof.
  split; [reflexivity|]. split.
  - exact (proj1 (proj1 row_indexing_safety Sample.imports
                    TooManyTestCases.default [] eq_refl)).
  - split; [now left|].
    exact (proj1 (proj2 row_indexing_safety) Sample.short_resource_row
             (Row.mk ["Resource"] 2) [] (or_introl eq_refl) eq_refl).
Defined.

Lemma curdir_loop suite (rows : list Row.t) (k : Sink) :
  for_each rows (RequirdNoCurdirInImporting.row_body suite) k
  = (if forallb row_indexable rows then Val Next else Exc (IndexError OfRow),
     (k ++ flat_map (curdir_findings suite) (indexable_prefix rows))%list).
Proof.
  revert k. induction rows as [|row rows IH]; intros k.
  - cbn. now rewrite app_nil_r.
  - cbn [for_each forallb indexable_prefix]. unfold bind.
    destruct (row_indexable row) eqn:E.
    + rewrite curdir_row_body_indexable by exact E.
      rewrite IH. cbn [andb flat_map]. now rewrite app_assoc.
    + rewrite curdir_row_body_eq. unfold row_indexable in E.
      cbn [andb flat_map]. rewrite app_nil_r.
      destruct (Row.cells row) as [|c0 [|c1 rest]]; [reflexivity| |];
        destruct (String.eqb c0 "Resource"); try discriminate; reflexivity.
Qed.

Lemma indexable_prefix_all (rows : list Row.t) :
  forallb row_indexable rows = true -> indexable_prefix rows = rows.
Proof.
  induction rows as [|row rows IH]; [reflexivity|].
  cbn [forallb indexable_prefix]. intros H. apply andb_true_iff in H as [H1 H2].
  now rewrite H1, IH.
Qed.

(** C6, as the rule has it: the rule goes through the rows of the
    settings tables in order, up to the first row that lacks a cell it
    reads (a first cell, and a second one when the first is [Resource]),
    where it raises; a row it gets through has a finding at its line
    exactly when its first cell is [Resource], compared with letter case,
    and its second cell contains [${CURDIR}]; a row whose first cell
    differs, be it by case only, has none.  In a document where no row
    lacks such a cell this holds of every settings-table row. *)
Theorem curdir_rule_correct :
  forall suite k,
    RequirdNoCurdirInImporting.apply suite k
    = (if rows_indexable suite then Val tt else Exc (IndexError OfRow),
       (k ++ flat_map (curdir_findings suite)
               (indexable_prefix (setting_rows suite)))%list)
    /\ (rows_indexable suite = true ->
        RequirdNoCurdirInImporting.apply suite k
        = (Val tt, (k ++ flat_map (curdir_findings suite) (setting_rows suite))%list))
    /\ (forall row c1 rest,
          Row.cells row = "Resource" :: c1 :: rest ->
          (curdir_findings suite row
           = [finding RequirdNoCurdirInImporting.self suite "Don't use ${CURDIR}"
                (Row.linenumber row)]
           <-> PyStr.contains "${CURDIR}" c1 = true)
          /\ (PyStr.contains "${CURDIR}" c1 = false -> curdir_findings suite row = []))
    /\ (forall row,
          hd_error (Row.cells row) <> Some "Resource" -> curdir_findings suite row = [])
    /\ curdir_findings suite (Row.mk ["resource"; "${CURDIR}/lower.robot"] 4) = [].
Proof.
  intros suite k.
  split; [|split; [now apply curdir_apply_indexable|]].
  { rewrite curdir_apply_eq, curdir_loop. unfold rows_indexable.
    destruct (forallb row_indexable (setting_rows suite)); reflexivity. }
  split; [|split; [|reflexivity]].
  - intros row c1 rest Hrow. unfold curdir_findings. rewrite Hrow.
    change (String.eqb "Resource" "Resource") with true. cbn [andb].
    destruct (PyStr.contains "${CURDIR}" c1).
    + split; [split; reflexivity|discriminate].
    + split; [split; discriminate|reflexivity].
  - intros row Hrow. unfold curdir_findings.
    destruct (Row.cells row) as [|c0 [|c1 rest]]; try reflexivity.
    destruct (String.eqb_spec c0 "Resource") as [->|Hne]; [|reflexivity].
    now contradiction Hrow.
Qed.

Lemma curdir_rule_correct_witness :
  rows_indexable Sample.imports = true
  /\ RequirdNoCurdirInImporting.apply Sample.imports []
     = (Val tt,
        [finding RequirdNoCurdirInImporting.self Sample.imports "Don't use ${CURDIR}" 3]).
Proof.
  split; [reflexivity|].
  exact (proj1 (proj2 (curdir_rule_correct Sample.imports [])) eq_refl).
Defined.

(** C6 as stated fails: the second settings row below has [Resource] as
    its first cell and [${CURDIR}] in its second, yet the rule files
    nothing for it, because the row before it has no second cell and the
    rule raises there. *)
Lemma curdir_rule_counterexample :
  let row := Row.mk ["Resource"; "${CURDIR}/../common.robot"] 3 in
  In row (setting_rows Sample.short_resource_row)
  /\ nth_error (Row.cells row) 0 = Some "Resource"
  /\ (exists c1, nth_error (Row.cells row) 1 = Some c1
                 /\ PyStr.contains "${CURDIR}" c1 = true)
  /\ RequirdNoCurdirInImporting.apply Sample.short_resource_row []
     = (Exc (IndexError OfRow), []).
Proof.
  cbv zeta. split; [right; now left|]. split; [reflexivity|].
  split; [|reflexivity]. eexists; split; reflexivity.
Qed.

(** C4, as the rule has it: the documentation rule files nothing when
    some settings-table row has [documentation] as its first cell, letter
    case aside; when no row has and every settings-table row has a first
    cell, it files exactly one finding, at the line after the header of
    the first settings table, or at line 1 when the document has no
    settings table. *)
Theorem documentation_rule_correct :
  forall suite k,
    (has_setting "documentation" suite = true ->
     snd (RequireSuiteDocumentation.apply suite k) = k)
    /\ (first_cells_present suite = true ->
        has_setting "documentation" suite = true ->
        RequireSuiteDocumentation.apply suite k = (Val tt, k))
    /\ (first_cells_present suite = true ->
        has_setting "documentation" suite = false ->
        RequireSuiteDocumentation.apply suite k
        = (Val tt,
           (k ++ [finding RequireSuiteDocumentation.self suite "No suite documentation"
                    (documentation_anchor suite)])%list))
    /\ (forall t rest, setting_tables suite = t :: rest ->
        documentation_anchor suite = Table.linenumber t + 1)
    /\ (setting_tables suite = [] -> documentation_anchor suite = 1)
    /\ findings (RequireSuiteDocumentation.apply Sample.library_only)
       = [mkViolation "5GC000165/login.robot" "RequireSuiteDocumentation" WARNING
            "No suite documentation" 5]
    /\ findings (RequireSuiteDocumentation.apply Sample.imports) = [].
Proof.
  intros suite k. rewrite documentation_apply_eq.
  unfold has_setting, documentation_anchor.
  split.
  { intros H. destruct (scan_rows_found _ _ H) as [-> | ->]; reflexivity. }
  split; [intros Hp; rewrite scan_rows_present by exact Hp; now intros ->|].
  split; [intros Hp; rewrite scan_rows_present by exact Hp; now intros ->|].
  split; [now intros t rest ->|]. split; [now intros ->|].
  split; reflexivity.
Qed.

Lemma documentation_rule_correct_witness :
  first_cells_present Sample.library_only = true
  /\ has_setting "documentation" Sample.library_only = false
  /\ RequireSuiteDocumentation.apply Sample.library_only []
     = (Val tt,
        [finding RequireSuiteDocumentation.self Sample.library_only
           "No suite documentation" (documentation_anchor Sample.library_only)]).
Proof.
  split; [reflexivity|]. split; [reflexivity|].
  exact (proj1 (proj2 (proj2 (documentation_rule_correct Sample.library_only [])))
           eq_refl eq_refl).
Defined.

(** C4 as stated fails: no settings-table row of the document below has
    [documentation] as its first cell, yet the rule files no finding: the
    one row has no cell at all and reading its first cell raises. *)
Lemma documentation_rule_counterexample :
  has_setting "documentation" Sample.empty_row = false
  /\ (forall row, In row (setting_rows Sample.empty_row) ->
        forall c0, nth_error (Row.cells row) 0 = Some c0 ->
                   PyStr.lower c0 <> "documentation")
  /\ RequireSuiteDocumentation.apply Sample.empty_row []
     = (Exc (IndexError OfRow), []).
Proof.
  split; [reflexivity|]. split; [|reflexivity].
  intros row [<-|[]] c0 H. discriminate.
Qed.

(** C2, as the rule has it: the rule files nothing when some
    settings-table row has [test template] as its first cell, letter case
    aside, whatever the number of test cases, and nothing when the number
    of test cases does not exceed [max_allowed] (10 unless configured);
    when no row is a template row, every settings-table row has a first
    cell, [max_allowed] is not negative and the number of test cases
    exceeds it, the rule files exactly one finding, whose message contains
    both numbers, at the line of the test case at index [max_allowed]. *)
Theorem too_many_test_cases_correct :
  forall tm suite k,
    let n := Z.of_nat (length (Suite.testcases suite)) in
    let m := TooManyTestCases.max_allowed tm in
    (has_setting "test template" suite = true ->
     snd (TooManyTestCases.apply tm suite k) = k)
    /\ (first_cells_present suite = true ->
        has_setting "test template" suite = true ->
        TooManyTestCases.apply tm suite k = (Val tt, k))
    /\ (first_cells_present suite = true -> 0 <= m ->
        has_setting "test template" suite = false -> n > m ->
        exists tc,
          nth_error (Suite.testcases suite) (Z.to_nat m) = Some tc
          /\ TooManyTestCases.apply tm suite k
             = (Val tt,
                (k ++ [finding TooManyTestCases.info suite (TooManyTestCases.message n m)
                         (Testcase.linenumber tc)])%list)
          /\ PyStr.contains (PyStr.of_int n) (TooManyTestCases.message n m) = true
          /\ PyStr.contains (PyStr.of_int m) (TooManyTestCases.message n m) = true)
    /\ (n <= m -> snd (TooManyTestCases.apply tm suite k) = k)
    /\ (first_cells_present suite = true -> n <= m ->
        TooManyTestCases.apply tm suite k = (Val tt, k))
    /\ TooManyTestCases.max_allowed TooManyTestCases.default = 10
    /\ findings (TooManyTestCases.apply TooManyTestCases.default Sample.eleven)
       = [mkViolation "5GC000165/login.robot" "TooManyTestCases" WARNING
            "Too many test cases (11 > 10) in test suite" 30]
    /\ findings (TooManyTestCases.apply TooManyTestCases.default Sample.eleven_templated)
       = [].
Proof.
  intros tm suite k n m.
  rewrite too_many_apply_eq. unfold has_setting. fold n m. cbn zeta. fold n m.
  split.
  { intros H. destruct (scan_rows_found _ _ H) as [-> | ->]; reflexivity. }
  split; [intros Hp; rewrite scan_rows_present by exact Hp; now intros ->|].
  split; [|split; [|split; [|repeat split]]].
  - intros Hp Hm. rewrite scan_rows_present by exact Hp. intros -> Hgt.
    destruct (nth_error (Suite.testcases suite) (Z.to_nat m)) as [tc|] eqn:E.
    + exists tc. split; [reflexivity|].
      destruct (Z.gtb_spec n m); [|lia].
      unfold m at 1. rewrite py_index_nonneg by exact Hm. fold m. rewrite E.
      split; [reflexivity|apply message_mentions].
    + apply nth_error_None in E. lia.
  - intros Hle. destruct (Z.gtb_spec n m); [lia|].
    destruct (scan_rows _ _) as [[| |]|e]; reflexivity.
  - intros Hp Hle. rewrite scan_rows_present by exact Hp.
    destruct (Z.gtb_spec n m); [lia|].
    destruct (existsb _ _); reflexivity.
Qed.

Lemma too_many_test_cases_correct_witness :
  first_cells_present Sample.eleven = true
  /\ 0 <= TooManyTestCases.max_allowed TooManyTestCases.default
  /\ has_setting "test template" Sample.eleven = false
  /\ Z.of_nat (length (Suite.testcases Sample.eleven))
     > TooManyTestCases.max_allowed TooManyTestCases.default
  /\ exists tc,
       nth_error (Suite.testcases Sample.eleven) 10 = Some tc
       /\ TooManyTestCases.apply TooManyTestCases.default Sample.eleven []
          = (Val tt,
             [finding TooManyTestCases.info Sample.eleven
                (TooManyTestCases.message 11 10) (Testcase.linenumber tc)]).
Proof.
  split; [reflexivity|]. split; [discriminate|]. split; [reflexivity|].
  split; [reflexivity|].
  destruct (proj1 (proj2 (proj2 (too_many_test_cases_correct TooManyTestCases.default
                                   Sample.eleven [])))
              eq_refl ltac:(discriminate) eq_refl eq_refl)
    as (tc & Htc & Happly & _).
  exists tc. split; [exact Htc|exact Happly].
Defined.

(** C2 as stated fails.  With the limit configured to -1, a document
    without test cases has more test cases than the limit, yet the rule
    files nothing and raises, and in a document with three test cases the
    finding stands at the last one, which is not at index -1 of a sequence
    counted from 0; with the limit 0, a settings row without cells makes
    the rule raise before it counts the one test case. *)
Lemma too_many_test_cases_counterexample :
  let tm := TooManyTestCases.configure TooManyTestCases.default (-1) in
  (has_setting "test template" Sample.blank = false
   /\ Z.of_nat (length (Suite.testcases Sample.blank)) > TooManyTestCases.max_allowed tm
   /\ TooManyTestCases.apply tm Sample.blank [] = (Exc (IndexError OfList), []))
  /\ (has_setting "test template" Sample.three = false
      /\ Z.of_nat (length (Suite.testcases Sample.three)) > TooManyTestCases.max_allowed tm
      /\ findings (TooManyTestCases.apply tm Sample.three)
         = [finding TooManyTestCases.info Sample.three
              "Too many test cases (3 > -1) in test suite" 22]
      /\ nth_error (Suite.testcases Sample.three) 2 = Some (Testcase.mk "Case" 22))
  /\ (let tm0 := TooManyTestCases.configure TooManyTestCases.default 0 in
      has_setting "test template" Sample.empty_row = false
      /\ Z.of_nat (length (Suite.testcases Sample.empty_row))
         > TooManyTestCases.max_allowed tm0
      /\ TooManyTestCases.apply tm0 Sample.empty_row [] = (Exc (IndexError OfRow), [])).
Proof.
  cbv zeta. repeat split.
Qed.

(** ** The author and contact rule *)

Section AuthorRule.

Let mention (tokens : list string) (cell : string) : bool :=
  any_in tokens (PyStr.lower cell).

Lemma cells_loop (cells : list string) (a c : bool) (k : Sink) :
  for_acc cells RequiredAutherInfo.cell_body (a, c) k
  = (Val (Next,
          (a || existsb (mention RequiredAutherInfo.author_tokens) cells,
           c || existsb (mention RequiredAutherInfo.contact_tokens) cells)%bool), k).
Proof.
  revert a c. induction cells as [|cell cells IH]; intros a c.
  - cbn. now rewrite !orb_false_r.
  - cbn [for_acc existsb]. unfold bind.
    unfold RequiredAutherInfo.cell_body at 1. unfold ret at 1. cbn [fst snd].
    rewrite IH. unfold mention.
    destruct (any_in RequiredAutherInfo.author_tokens (PyStr.lower cell));
      destruct (any_in RequiredAutherInfo.contact_tokens (PyStr.lower cell));
      destruct a; destruct c; reflexivity.
Qed.

Lemma rows_loop (rows : list Row.t) (a c : bool) (k : Sink) :
  for_acc rows
    (fun row flags => for_acc (Row.cells row) RequiredAutherInfo.cell_body flags)
    (a, c) k
  = (Val (Next,
          (a || existsb (fun row => existsb (mention RequiredAutherInfo.author_tokens)
                                      (Row.cells row)) rows,
           c || existsb (fun row => existsb (mention RequiredAutherInfo.contact_tokens)
                                      (Row.cells row)) rows)%bool), k).
Proof.
  revert a c. induction rows as [|row rows IH]; intros a c.
  - cbn. now rewrite !orb_false_r.
  - cbn [for_acc existsb]. unfold bind. rewrite cells_loop. cbn [fst snd].
    rewrite IH. now rewrite !orb_assoc.
Qed.

Lemma author_table_body_eq suite table k :
  RequiredAutherInfo.table_body suite table k
  = (Val Next,
     (k ++ (if isinstance_SettingTable (Table.class table)
            then author_findings suite table else []))%list).
Proof.
  unfold RequiredAutherInfo.table_body.
  destruct (isinstance_SettingTable (Table.class table));
    [|cbn; now rewrite app_nil_r].
  unfold bind. rewrite rows_loop. cbn [fst snd orb].
  unfold author_findings, table_mentions. fold (mention RequiredAutherInfo.author_tokens).
  fold (mention RequiredAutherInfo.contact_tokens).
  destruct (existsb (fun row => existsb (mention RequiredAutherInfo.author_tokens) _) _);
    destruct (existsb (fun row => existsb (mention RequiredAutherInfo.contact_tokens) _) _);
    cbn; rewrite ?app_nil_r, <- ?app_assoc; reflexivity.
Qed.

Lemma flat_map_settings {B} (f : Table.t -> list B) (tables : list Table.t) :
  flat_map (fun t => if isinstance_SettingTable (Table.class t) then f t else []) tables
  = flat_map f (filter (fun t => isinstance_SettingTable (Table.class t)) tables).
Proof.
  induction tables as [|t tables IH]; [reflexivity|].
  cbn [flat_map filter]. destruct (isinstance_SettingTable (Table.class t)); cbn.
  - now rewrite IH.
  - exact IH.
Qed.

Lemma author_apply_eq suite k :
  RequiredAutherInfo.apply suite k
  = (Val tt, (k ++ flat_map (author_findings suite) (setting_tables suite))%list).
Proof.
  unfold RequiredAutherInfo.apply.
  erewrite bind_val
    by (apply for_each_all_next; intros; apply author_table_body_eq).
  unfold setting_tables. now rewrite flat_map_settings.
Qed.

Lemma table_mentions_iff (tokens : list string) (table : Table.t) :
  table_mentions tokens table = true
  <-> exists row cell token,
        In row (Table.rows table) /\ In cell (Row.cells row) /\ In token tokens
        /\ PyStr.contains token (PyStr.lower cell) = true.
Proof.
  unfold table_mentions, any_in. split.
  - intros H. apply existsb_exists in H as (row & Hrow & H).
    apply existsb_exists in H as (cell & Hcell & H).
    apply existsb_exists in H as (token & Htoken & H).
    now exists row, cell, token.
  - intros (row & cell & token & Hrow & Hcell & Htoken & H).
    apply existsb_exists. exists row. split; [assumption|].
    apply existsb_exists. exists cell. split; [assumption|].
    apply existsb_exists. now exists token.
Qed.

Lemma count_message_app msg (l1 l2 : list Violation) :
  count_message msg (l1 ++ l2) = (count_message msg l1 + count_message msg l2)%nat.
Proof. unfold count_message. now rewrite filter_app, length_app. Qed.

Lemma count_author_findings suite (tables : list Table.t) :
  count_message "Author name is needed" (flat_map (author_findings suite) tables)
  = length (filter (fun t => negb (table_mentions RequiredAutherInfo.author_tokens t)) tables)
  /\ count_message "Contact list is needed" (flat_map (author_findings suite) tables)
     = length (filter (fun t => negb (table_mentions RequiredAutherInfo.contact_tokens t))
                 tables).
Proof.
  induction tables as [|t tables [IHa IHc]]; [split; reflexivity|].
  cbn [flat_map filter]. rewrite !count_message_app, IHa, IHc.
  unfold author_findings.
  destruct (table_mentions RequiredAutherInfo.author_tokens t);
    destruct (table_mentions RequiredAutherInfo.contact_tokens t);
    split; reflexivity.
Qed.

Lemma author_findings_line_1 suite (tables : list Table.t) :
  Forall (fun v => v_linenumber v = 1
                   /\ (v = author_missing suite \/ v = contact_missing suite))
    (flat_map (author_findings suite) tables).
Proof.
  apply Forall_flat_map, Forall_forall. intros t _. unfold author_findings.
  destruct (table_mentions RequiredAutherInfo.author_tokens t);
    destruct (table_mentions RequiredAutherInfo.contact_tokens t);
    cbn [app]; repeat (apply Forall_cons; [split; [reflexivity|tauto]|]);
    apply Forall_nil.
Qed.

End AuthorRule.

(** C10. The author/contact rule keeps and reports its two flags table by
    table: it files nothing for a document without settings table, and for
    every settings table one "Author name is needed" when no cell of that
    table contains an author token and one "Contact list is needed" when
    none contains a contact token, every one of them at line 1. *)
Theorem author_rule_per_table :
  forall suite k,
    RequiredAutherInfo.apply suite k
    = (Val tt, (k ++ flat_map (author_findings suite) (setting_tables suite))%list)
    /\ (setting_tables suite = [] -> findings (RequiredAutherInfo.apply suite) = [])
    /\ count_message "Author name is needed" (findings (RequiredAutherInfo.apply suite))
       = length (filter (fun t => negb (table_mentions RequiredAutherInfo.author_tokens t))
                   (setting_tables suite))
    /\ count_message "Contact list is needed" (findings (RequiredAutherInfo.apply suite))
       = length (filter (fun t => negb (table_mentions RequiredAutherInfo.contact_tokens t))
                   (setting_tables suite))
    /\ Forall (fun v => v_linenumber v = 1
                        /\ (v = author_missing suite \/ v = contact_missing suite))
         (findings (RequiredAutherInfo.apply suite))
    /\ (forall tokens table,
          table_mentions tokens table = true
          <-> exists row cell token,
                In row (Table.rows table) /\ In cell (Row.cells row) /\ In token tokens
                /\ PyStr.contains token (PyStr.lower cell) = true).
Proof.
  intros suite k. unfold findings. rewrite !author_apply_eq. cbn [snd app].
  split; [reflexivity|]. split; [now intros ->|].
  split; [apply count_author_findings|]. split; [apply count_author_findings|].
  split; [apply author_findings_line_1|exact table_mentions_iff].
Qed.

Lemma author_rule_per_table_witness :
  setting_tables Sample.blank = []
  /\ findings (RequiredAutherInfo.apply Sample.blank) = [].
Proof.
  split; [reflexivity|].
  exact (proj1 (proj2 (author_rule_per_table Sample.blank [])) eq_refl).
Defined.

(** C3, as the rule has it: for a document with exactly one settings table
    the rule scans all cells of all rows of that table, letter case aside,
    for the author tokens and for the contact tokens, and then files one
    finding when no cell contains an author token and, independently, one
    when no cell contains a contact token, both at line 1; so such a
    document gets at most one finding of each kind. *)
Theorem author_rule_single_table :
  forall suite table k,
    setting_tables suite = [table] ->
    RequiredAutherInfo.apply suite k
    = (Val tt,
       (k ++ (if table_mentions RequiredAutherInfo.author_tokens table
              then [] else [author_missing suite])
          ++ (if table_mentions RequiredAutherInfo.contact_tokens table
              then [] else [contact_missing suite]))%list)
    /\ (forall tokens,
          table_mentions tokens table = true
          <-> exists row cell token,
                In row (Table.rows table) /\ In cell (Row.cells row) /\ In token tokens
                /\ PyStr.contains token (PyStr.lower cell) = true)
    /\ v_linenumber (author_missing suite) = 1
    /\ v_linenumber (contact_missing suite) = 1
    /\ (count_message "Author name is needed" (findings (RequiredAutherInfo.apply suite))
        <= 1)%nat
    /\ (count_message "Contact list is needed" (findings (RequiredAutherInfo.apply suite))
        <= 1)%nat
    /\ findings (RequiredAutherInfo.apply Sample.modified_by)
       = [contact_missing Sample.modified_by].
Proof.
  intros suite table k H. unfold findings. rewrite !author_apply_eq, H.
  cbn [flat_map snd app]. rewrite app_nil_r. unfold author_findings.
  split; [reflexivity|]. split; [intros; apply table_mentions_iff|].
  split; [reflexivity|]. split; [reflexivity|].
  destruct (table_mentions RequiredAutherInfo.author_tokens table);
    destruct (table_mentions RequiredAutherInfo.contact_tokens table);
    cbn; repeat split; lia.
Qed.

Lemma author_rule_single_table_witness :
  setting_tables Sample.modified_by
  = [Table.mk SettingTable "Settings" 1
       [Row.mk ["Documentation"; "Modified: 1/1/2020 Jane Doe"] 2]]
  /\ RequiredAutherInfo.apply Sample.modified_by []
     = (Val tt, [contact_missing Sample.modified_by]).
Proof.
  split; [reflexivity|].
  exact (proj1 (author_rule_single_table Sample.modified_by [] eq_refl)).
Defined.

(** C3 as stated fails: a document without settings table has neither an
    author nor a contact token in any cell, yet gets no finding; a
    document with two settings tables gets the author finding twice and
    the contact finding twice. *)
Lemma author_rule_counterexample :
  (setting_rows Sample.blank = []
   /\ findings (RequiredAutherInfo.apply Sample.blank) = [])
  /\ (setting_rows Sample.two_settings = []
      /\ count_message "Author name is needed"
           (findings (RequiredAutherInfo.apply Sample.two_settings)) = 2%nat
      /\ count_message "Contact list is needed"
           (findings (RequiredAutherInfo.apply Sample.two_settings)) = 2%nat).
Proof.
  repeat split.
Qed.

(** ** Table headers *)

Section Regex.

Lemma existsb_ext_in {A} (f g : A -> bool) (l : list A) :
  (forall x, In x l -> f x = g x) -> existsb f l = existsb g l.
Proof.
  induction l as [|x l IH]; intros H; [reflexivity|].
  cbn [existsb]. rewrite (H x) by now left.
  rewrite IH; [reflexivity|]. intros; apply H; now right.
Qed.

Lemma existsb_flat_map {A B} (f : B -> bool) (g : A -> list B) (l : list A) :
  existsb f (flat_map g l) = existsb (fun x => existsb f (g x)) l.
Proof.
  induction l as [|x l IH]; [reflexivity|].
  cbn [flat_map existsb]. now rewrite existsb_app, IH.
Qed.

Lemma existsb_map {A B} (f : B -> bool) (g : A -> B) (l : list A) :
  existsb f (map g l) = existsb (fun x => f (g x)) l.
Proof.
  induction l as [|x l IH]; [reflexivity|]. cbn [map existsb]. now rewrite IH.
Qed.

Lemma existsb_same {A} (f : A -> bool) (l1 l2 : list A) :
  (forall x, In x l1 <-> In x l2) -> existsb f l1 = existsb f l2.
Proof.
  intros H. apply eq_true_iff_eq. rewrite !existsb_exists.
  split; intros (x & Hin & Hx); exists x; split; auto; now apply H.
Qed.

Lemma string_length_app (x y : string) :
  String.length (x ++ y) = (String.length x + String.length y)%nat.
Proof. induction x as [|c x IH]; cbn; [reflexivity|now rewrite IH]. Qed.

Lemma lit_match_app ic (x y : string) (s : list N) :
  Re.lit_match ic (x ++ y) s
  = match Re.lit_match ic x s with
    | Some rest => Re.lit_match ic y rest
    | None => None
    end.
Proof.
  revert s. induction x as [|a x IH]; intros s; [reflexivity|].
  cbn [append Re.lit_match]. destruct s as [|b s]; [reflexivity|].
  destruct (Re.chr_match ic a b); [apply IH|reflexivity].
Qed.

Lemma lit_then_app ic pos s k (x y : string) :
  lit_then ic pos s k (x ++ y)
  = lit_then ic pos s (fun p t => lit_then ic p t k y) x.
Proof.
  unfold lit_then. rewrite lit_match_app, string_length_app.
  destruct (Re.lit_match ic x s) as [rest|]; [|reflexivity].
  now rewrite Nat.add_assoc.
Qed.

Lemma lit_then_existsb ic pos s k (x : string) (ys : list string) :
  lit_then ic pos s (fun p t => existsb (lit_then ic p t k) ys) x
  = existsb (fun y => lit_then ic pos s k (x ++ y)) ys.
Proof.
  induction ys as [|y ys IH].
  - unfold lit_then. cbn. destruct (Re.lit_match ic x s); reflexivity.
  - cbn [existsb]. rewrite <- IH, lit_then_app.
    unfold lit_then. destruct (Re.lit_match ic x s); reflexivity.
Qed.

(** An anchor-free expression matches as the literals of its word list
    do. *)
Lemma run_words ic (r : Re.regex) :
  Re.anchor_free r = true ->
  forall pos s k, Re.run ic r pos s k = existsb (lit_then ic pos s k) (Re.words r).
Proof.
  induction r as [w|a IHa b IHb|a IHa b IHb|a IHa| |]; cbn [Re.anchor_free];
    intros Hf pos s k; try discriminate.
  - cbn. unfold lit_then. now rewrite orb_false_r.
  - apply andb_true_iff in Hf as [Ha Hb].
    cbn [Re.run Re.words]. rewrite IHa by assumption.
    rewrite existsb_flat_map. apply existsb_ext_in. intros x _.
    rewrite existsb_map.
    transitivity (lit_then ic pos s
                    (fun p t => existsb (lit_then ic p t k) (Re.words b)) x).
    + unfold lit_then. destruct (Re.lit_match ic x s); [|reflexivity].
      now apply IHb.
    + apply lit_then_existsb.
  - apply andb_true_iff in Hf as [Ha Hb].
    cbn [Re.run Re.words]. now rewrite existsb_app, IHa, IHb.
  - cbn [Re.run Re.words]. rewrite existsb_app, IHa by assumption.
    cbn. unfold lit_then at 2. cbn. now rewrite Nat.add_0_r, orb_false_r.
Qed.

Lemma sre_fold_newline (c : N) :
  Re.sre_fold c = Re.newline_code -> c = Re.newline_code.
Proof.
  unfold Re.sre_fold, Re.newline_code.
  destruct ((65 <=? c)%N && (c <=? 90)%N)%bool eqn:E.
  - apply andb_true_iff in E as [E1 E2].
    apply N.leb_le in E1. lia.
  - destruct ((c =? 304)%N || (c =? 305)%N)%bool; [discriminate|].
    destruct (c =? 383)%N; [discriminate|].
    destruct (c =? 8490)%N; [discriminate|auto].
Qed.

Lemma chomp_cons (b : N) (s : list N) :
  b <> Re.newline_code -> chomp (b :: s) = b :: chomp s.
Proof.
  intros Hb. cbn [chomp]. destruct s; [|reflexivity].
  destruct (N.eqb_spec b Re.newline_code); [contradiction|reflexivity].
Qed.

(** A plain word matches the whole of [s] up to [$] exactly when it is
    [s] folded, the final newline aside. *)
Lemma lit_then_end (w : string) (s : list N) (pos : nat) :
  plain_word w = true ->
  lit_then true pos s (fun _ t => (Re.at_end t && true)%bool) w
  = codes_eqb (map Re.sre_fold (chomp s)) (Utf8.codes w).
Proof.
  unfold lit_then. revert s pos. induction w as [|a w IH]; intros s pos Hw.
  - cbn [Re.lit_match]. rewrite andb_true_r.
    destruct s as [|c [|d s]]; [reflexivity| |].
    + cbn [Re.at_end chomp]. destruct (c =? Re.newline_code)%N; reflexivity.
    + reflexivity.
  - cbn [plain_word] in Hw. apply andb_true_iff in Hw as [Hw Hw'].
    apply andb_true_iff in Hw as [Ha Hnl].
    apply N.eqb_eq in Ha. apply negb_true_iff, N.eqb_neq in Hnl.
    cbn [Re.lit_match]. destruct s as [|b s]; [reflexivity|].
    unfold Re.chr_match. rewrite Ha.
    change (Utf8.codes (String a w)) with (N_of_ascii a :: Utf8.codes w).
    destruct (N.eqb_spec (Re.sre_fold b) (N_of_ascii a)) as [Hab|Hab].
    + assert (b <> Re.newline_code) as Hb.
      { intros ->. apply Hnl. rewrite <- Hab. reflexivity. }
      rewrite chomp_cons by assumption. cbn [map codes_eqb].
      rewrite Hab, N.eqb_refl. cbn [andb]. exact (IH s pos Hw').
    + destruct s as [|d s].
      * cbn [chomp]. destruct (b =? Re.newline_code)%N; [reflexivity|].
        cbn [map codes_eqb].
        destruct (N.eqb_spec (Re.sre_fold b) (N_of_ascii a)); [contradiction|reflexivity].
      * cbn [chomp map codes_eqb].
        destruct (N.eqb_spec (Re.sre_fold b) (N_of_ascii a)); [contradiction|reflexivity].
Qed.

Lemma table_names_plain :
  forallb plain_word (Re.words table_names) = true.
Proof. vm_compute. reflexivity. Qed.

Lemma table_names_forms (w : string) :
  In w (Re.words table_names) <-> In w recognized_forms.
Proof.
  assert (H1 : forallb (fun x => PyStr.mem x recognized_forms) (Re.words table_names) = true)
    by (vm_compute; reflexivity).
  assert (H2 : forallb (fun x => PyStr.mem x (Re.words table_names)) recognized_forms = true)
    by (vm_compute; reflexivity).
  rewrite forallb_forall in H1, H2. unfold PyStr.mem in H1, H2.
  split; intros Hin.
  - apply H1, existsb_exists in Hin as (y & Hy & E).
    apply String.eqb_eq in E. now subst.
  - apply H2, existsb_exists in Hin as (y & Hy & E).
    apply String.eqb_eq in E. now subst.
Qed.

(** The pattern of [InvalidTable] accepts the recognized forms, up to what
    [IGNORECASE] folds and one final newline. *)
Lemma table_header_match (name : string) :
  Re.match_ table_header_re name true
  = recognized_header (chomp (Utf8.decode name)).
Proof.
  unfold Re.match_, table_header_re. cbn [Re.run]. cbn [Nat.eqb andb].
  rewrite run_words by reflexivity.
  unfold recognized_header.
  rewrite <- (existsb_same _ _ _ table_names_forms).
  apply existsb_ext_in. intros w Hw.
  cbn [Re.run]. apply lit_then_end.
  pose proof table_names_plain as H. rewrite forallb_forall in H. now apply H.
Qed.

Lemma codes_eqb_eq (x y : list N) : codes_eqb x y = true <-> x = y.
Proof.
  revert y. induction x as [|a x IH]; intros [|b y]; cbn [codes_eqb];
    try (split; [discriminate|discriminate]); [tauto|].
  rewrite andb_true_iff, N.eqb_eq, IH. split.
  - now intros [-> ->].
  - intros E. injection E as -> ->. auto.
Qed.

Lemma recognized_header_iff (h : list N) :
  recognized_header h = true
  <-> exists form, In form recognized_forms /\ map Re.sre_fold h = Utf8.codes form.
Proof.
  unfold recognized_header. rewrite existsb_exists.
  split; intros (form & Hin & H); exists form; split; auto; now apply codes_eqb_eq.
Qed.

Lemma chomp_cases (h : list N) :
  chomp h = h \/ h = (chomp h ++ [Re.newline_code])%list.
Proof.
  induction h as [|c s IH]; [now left|].
  cbn [chomp]. destruct s as [|d s].
  - destruct (N.eqb_spec c Re.newline_code) as [->|]; [now right|now left].
  - destruct IH as [IH|IH]; [left|right]; cbn [app]; congruence.
Qed.

Lemma decode_ascii (s : string) :
  Utf8.is_ascii s = true -> Utf8.decode s = Utf8.codes s.
Proof.
  induction s as [|c s IH]; [reflexivity|].
  cbn [Utf8.is_ascii Utf8.decode]. intros H. apply andb_true_iff in H as [Hc Hs].
  rewrite Hc, IH by exact Hs. reflexivity.
Qed.

Lemma fold_lower_char (c : ascii) :
  (N_of_ascii c <? 128)%N = true ->
  Re.sre_fold (N_of_ascii c) = N_of_ascii (PyStr.lower_char c).
Proof.
  destruct c as [[] [] [] [] [] [] [] []]; vm_compute; congruence.
Qed.

(** On ASCII text the fold is [lower]. *)
Lemma fold_lower (s : string) :
  Utf8.is_ascii s = true ->
  map Re.sre_fold (Utf8.decode s) = Utf8.codes (PyStr.lower s).
Proof.
  intros H. rewrite decode_ascii by exact H.
  induction s as [|c s IH]; [reflexivity|].
  cbn [Utf8.is_ascii] in H. apply andb_true_iff in H as [Hc Hs].
  change (Utf8.codes (String c s)) with (N_of_ascii c :: Utf8.codes s).
  cbn [map PyStr.lower]. rewrite fold_lower_char by exact Hc.
  now rewrite IH.
Qed.

Lemma invalid_table_apply_eq suite k :
  InvalidTable.apply suite k
  = (Val tt, (k ++ flat_map (header_findings suite) (Suite.tables suite))%list).
Proof.
  unfold InvalidTable.apply.
  erewrite bind_val; [reflexivity|].
  apply for_each_all_next. intros table _ k0.
  unfold InvalidTable.table_body, header_findings.
  rewrite table_header_match.
  destruct (recognized_header (chomp (Utf8.decode (Table.name table)))); cbn;
    [now rewrite app_nil_r|reflexivity].
Qed.

End Regex.

(** C5, as the rule has it: for every table of a document the rule files
    exactly one finding, at the table's header line, if and only if the
    header text, without the newline that may end it, is none of the
    recognized forms up to what [IGNORECASE] identifies: a letter with
    its other case, and U+0130 and U+0131 with [i], U+017F with [s],
    U+212A with [k].  On ASCII header texts that is letter case alone.  Of
    the headers [Setting], [Configuration], [Test Cases] and [Keywords]
    only [Configuration] gets a finding. *)
Theorem invalid_table_correct :
  forall suite k,
    InvalidTable.apply suite k
    = (Val tt, (k ++ flat_map (header_findings suite) (Suite.tables suite))%list)
    /\ (forall table,
          (header_findings suite table = []
           <-> exists form,
                 In form recognized_forms
                 /\ map Re.sre_fold (chomp (Utf8.decode (Table.name table)))
                    = Utf8.codes form)
          /\ (header_findings suite table
              = [finding InvalidTable.self suite
                   ("Unknown table name '" ++ Table.name table ++ "'")
                   (Table.linenumber table)]
              <-> ~ exists form,
                      In form recognized_forms
                      /\ map Re.sre_fold (chomp (Utf8.decode (Table.name table)))
                         = Utf8.codes form))
    /\ (forall h, chomp h = h \/ h = (chomp h ++ [Re.newline_code])%list)
    /\ (forall s, Utf8.is_ascii s = true ->
                  map Re.sre_fold (Utf8.decode s) = Utf8.codes (PyStr.lower s))
    /\ findings (InvalidTable.apply Sample.headers)
       = [mkViolation "5GC000165/login.robot" "InvalidTable" WARNING
            "Unknown table name 'Configuration'" 3].
Proof.
  intros suite k. split; [apply invalid_table_apply_eq|].
  split; [|split; [exact chomp_cases|split; [exact fold_lower|reflexivity]]].
  intros table. rewrite <- recognized_header_iff. unfold header_findings, unknown_table.
  destruct (recognized_header (chomp (Utf8.decode (Table.name table)))); split; split;
    try reflexivity; try discriminate; try congruence.
Qed.

(** C5 as stated fails, three times.  The header text [Settings] followed
    by a newline is none of the recognized forms in any letter case, yet
    its table gets no finding, because [$] also matches before a final
    newline.  Neither is the header text that starts with U+017F, nor the
    one with U+0130, whose lower-case forms are themselves and [i] with a
    combining dot: [IGNORECASE] takes the first for [s] and the second
    for [i], and their tables get no finding. *)
Lemma invalid_table_counterexample :
  let unrecognized name :=
    existsb (fun form => codes_eqb (Unicode.lower Unicode.excerpt (Utf8.decode name))
                           (Utf8.codes form)) recognized_forms = false in
  (map Table.name (Suite.tables Sample.newline_header)
   = ["Settings" ++ String Re.newline EmptyString]
   /\ unrecognized ("Settings" ++ String Re.newline EmptyString)
   /\ InvalidTable.apply Sample.newline_header [] = (Val tt, []))
  /\ (map (fun t => Utf8.decode (Table.name t)) (Suite.tables Sample.long_s_header)
      = [(383 :: Utf8.codes "ettings")%N]
      /\ unrecognized (String (ascii_of_nat 197) (String (ascii_of_nat 191) "ettings"))
      /\ InvalidTable.apply Sample.long_s_header [] = (Val tt, []))
  /\ (map (fun t => Utf8.decode (Table.name t)) (Suite.tables Sample.dotted_i_header)
      = [(Utf8.codes "Sett" ++ 304 :: Utf8.codes "ngs")%N%list]
      /\ unrecognized
           ("Sett" ++ String (ascii_of_nat 196) (String (ascii_of_nat 176) "ngs"))
      /\ InvalidTable.apply Sample.dotted_i_header [] = (Val tt, [])).
Proof.
  cbv zeta. repeat split.
Qed.

(** ** Running the rules twice *)

Section Determinism.

Lemma suite_rules_append (tm : TooManyTestCases.t) (suite : Suite.t) :
  Forall (fun r => appends (rule_apply r suite)) (suite_rules tm).
Proof.
  unfold suite_rules. repeat apply Forall_cons; try apply Forall_nil; cbn [rule_apply].
  - unfold RequiredRobotFileSuffxAndFolder.apply. appends_tac.
  - unfold RequirdNoCurdirInImporting.apply, RequirdNoCurdirInImporting.row_body.
    appends_tac.
  - unfold RequiredAutherInfo.apply, RequiredAutherInfo.table_body,
      RequiredAutherInfo.cell_body.
    appends_tac.
  - unfold PeriodInSuiteName.apply. appends_tac.
  - unfold InvalidTable.apply, InvalidTable.table_body. appends_tac.
  - unfold DuplicateKeywordNames.apply, DuplicateKeywordNames.keyword_body. appends_tac.
  - unfold DuplicateTestNames.apply, DuplicateTestNames.testcase_body. appends_tac.
  - unfold RequireSuiteDocumentation.apply, return_on_setting. appends_tac.
  - unfold TooManyTestCases.apply, return_on_setting. appends_tac.
Qed.

Lemma run_rules_append (rules : list Rule) (suite : Suite.t) :
  Forall (fun r => appends (rule_apply r suite)) rules ->
  forall k,
    run_rules rules suite k
    = (fst (run_rules rules suite []), (k ++ snd (run_rules rules suite []))%list).
Proof.
  induction 1 as [|r rules Hr _ IH]; intros k.
  - cbn. now rewrite app_nil_r.
  - cbn [run_rules]. rewrite (Hr k), (Hr []). cbn [app].
    destruct (result (rule_apply r suite)) as [u|e].
    + rewrite (IH (k ++ _)%list), (IH (findings _)). cbn [fst snd].
      now rewrite app_assoc.
    + rewrite (IH (k ++ _)%list), (IH (findings _)).
      destruct (run_rules rules suite []) as [faults out]. cbn [fst snd].
      now rewrite app_assoc.
Qed.

End Determinism.

(** A run of the whole rule set leaves the findings collected before it
    in place and adds its own after them, the same ones whatever was
    collected before; a second run on the same document adds them once
    more. *)
Lemma run_rules_appends :
  forall tm suite k,
    Forall (fun r => appends (rule_apply r suite)) (suite_rules tm)
    /\ run_rules (suite_rules tm) suite k
       = (fst (check tm suite), (k ++ snd (check tm suite))%list)
    /\ (let first := run_rules (suite_rules tm) suite k in
        let second := run_rules (suite_rules tm) suite (snd first) in
        fst second = fst first
        /\ snd first = (k ++ snd (check tm suite))%list
        /\ snd second = (snd first ++ snd (check tm suite))%list).
Proof.
  intros tm suite k.
  pose proof (suite_rules_append tm suite) as Ha.
  pose proof (@run_rules_append _ _ Ha) as Hr. unfold check.
  split; [exact Ha|]. split; [apply Hr|].
  cbv zeta. rewrite (Hr (snd _)), (Hr k). cbn [fst snd]. auto.
Qed.

(** ** Checks of the Python operations on small inputs *)

Example replace_every_occurrence :
  PyStr.replace "ab" "x" "aabab ab" = "axx x".
Proof. reflexivity. Qed.

Example replace_empty_pattern : PyStr.replace "" "-" "abc" = "-a-b-c-".
Proof. reflexivity. Qed.

Example contains_placeholder :
  PyStr.contains "${CURDIR}" "x/${CURDIR}/y" = true
  /\ PyStr.contains "${CURDIR}" "${curdir}" = false.
Proof. split; reflexivity. Qed.

Example of_int_samples :
  PyStr.of_int 11 = "11" /\ PyStr.of_int 0 = "0" /\ PyStr.of_int (-1) = "-1".
Proof. repeat split; reflexivity. Qed.

Example py_index_samples :
  py_index [1; 2; 3] 0 = Some 1 /\ py_index [1; 2; 3] (-1) = Some 3
  /\ py_index [1; 2; 3] 3 = None /\ py_index [1; 2; 3] (-4) = None
  /\ py_index (@nil Z) (-1) = None.
Proof. repeat split; reflexivity. Qed.

Example header_pattern_samples :
  Re.match_ table_header_re "*** Settings ***" true = false
  /\ Re.match_ table_header_re "USER KEYWORD" true = true
  /\ Re.match_ table_header_re "Test  Cases" true = false
  /\ Re.match_ table_header_re "keywords " true = false
  /\ Re.match_ table_header_re "Settings" false = false.
Proof. repeat split; reflexivity. Qed.

Example lower_samples :
  Utf8.decode (String (ascii_of_nat 206) (String (ascii_of_nat 163) "")) = [931%N]
  /\ Unicode.lower Unicode.excerpt [304%N] = [105; 775]%N
  /\ Unicode.lower Unicode.excerpt [927; 916; 927; 931]%N = [959; 948; 959; 962]%N
  /\ Unicode.lower Unicode.excerpt [931%N] = [963%N]
  /\ Unicode.lower Unicode.excerpt [65; 931; 46; 98]%N = [97; 963; 46; 98]%N
  /\ Unicode.lower Unicode.excerpt [225; 931]%N = [225; 962]%N.
Proof. repeat split; reflexivity. Qed.

Example full_run_sample :
  check TooManyTestCases.default Sample.short_resource_row
  = ([("RequirdNoCurdirInImporting", IndexError OfRow)],
     [finding RequiredAutherInfo.self Sample.short_resource_row "Author name is needed" 1;
      finding RequiredAutherInfo.self Sample.short_resource_row "Contact list is needed" 1;
      finding RequireSuiteDocumentation.self Sample.short_resource_row
        "No suite documentation" 2]).
Proof. reflexivity. Qed.

(** * Further properties of the rules *)

(** ** Substrings and letter case *)

Section SubstringFacts.

Lemma startswith_iff (w s : string) :
  PyStr.startswith w s = true <-> exists post, s = w ++ post.
Proof.
  revert s. induction w as [|a w IH]; intros s.
  - split; [intros _; now exists s|reflexivity].
  - cbn [PyStr.startswith append]. destruct s as [|b s].
    + split; [discriminate|intros (post & H); discriminate].
    + rewrite andb_true_iff, Ascii.eqb_eq, IH. split.
      * intros (-> & post & ->). now exists post.
      * intros (post & H). injection H as -> ->. split; [reflexivity|now exists post].
Qed.

(** [w in s] holds exactly when [w] occurs somewhere in [s]. *)
Lemma contains_iff (w s : string) :
  PyStr.contains w s = true <-> exists pre post, s = pre ++ w ++ post.
Proof.
  induction s as [|c s IH].
  - cbn [PyStr.contains]. rewrite startswith_iff. split.
    + intros (post & H). now exists EmptyString, post.
    + intros (pre & post & H). destruct pre; [now exists post|discriminate].
  - cbn [PyStr.contains]. rewrite orb_true_iff, startswith_iff, IH. split.
    + intros [(post & H)|(pre & post & H)].
      * now exists EmptyString, post.
      * exists (String c pre), post. cbn [append]. now rewrite H.
    + intros (pre & post & H). destruct pre as [|d pre].
      * left. now exists post.
      * right. cbn [append] in H. injection H as _ H. now exists pre, post.
Qed.

Lemma lower_app (x y : string) :
  PyStr.lower (x ++ y) = PyStr.lower x ++ PyStr.lower y.
Proof. induction x as [|c x IH]; cbn; [reflexivity|now rewrite IH]. Qed.

Lemma lower_char_idem (c : ascii) :
  PyStr.lower_char (PyStr.lower_char c) = PyStr.lower_char c.
Proof. destruct c as [[] [] [] [] [] [] [] []]; reflexivity. Qed.

Lemma lower_char_keeps_letters (c : ascii) :
  is_separator c = false -> is_separator (PyStr.lower_char c) = false.
Proof. destruct c as [[] [] [] [] [] [] [] []]; vm_compute; congruence. Qed.

Lemma normalize_spec_app (x y : string) :
  normalize_spec (x ++ y) = normalize_spec x ++ normalize_spec y.
Proof.
  induction x as [|c x IH]; [reflexivity|].
  cbn [append normalize_spec]. destruct (is_separator c); [exact IH|].
  cbn [append]. now rewrite IH.
Qed.


Lemma normalize_spec_chars (x : string) (c : ascii) :
  In c (list_ascii_of_string (normalize_spec x)) ->
  is_separator c = false /\ PyStr.lower_char c = c.
Proof.
  induction x as [|d x IH]; [contradiction|].
  cbn [normalize_spec]. destruct (is_separator d) eqn:E; [exact IH|].
  cbn [list_ascii_of_string In]. intros [<-|H]; [|now apply IH].
  split; [now apply lower_char_keeps_letters|apply lower_char_idem].
Qed.

Lemma normalize_spec_length (x : string) :
  (String.length (normalize_spec x) <= String.length x)%nat.
Proof.
  induction x as [|d x IH]; [reflexivity|].
  cbn [normalize_spec]. destruct (is_separator d); cbn [String.length]; lia.
Qed.

End SubstringFacts.


Lemma filter_separators_app (x y : list N) (c : N) :
  Unicode.is_separator c = true ->
  filter (fun c => negb (Unicode.is_separator c)) (x ++ [c] ++ y)%list
  = filter (fun c => negb (Unicode.is_separator c)) (x ++ y)%list.
Proof.
  intros Hc. rewrite !filter_app. cbn [filter]. now rewrite Hc.
Qed.

Lemma lower_char_not_upper (a : ascii) :
  PyStr.lower_char a = a -> Unicode.is_upper (N_of_ascii a) = false.
Proof. destruct a as [[] [] [] [] [] [] [] []]; vm_compute; congruence. Qed.

Lemma length_codes (s : string) : length (Utf8.codes s) = String.length s.
Proof.
  unfold Utf8.codes. rewrite length_map.
  induction s as [|c s IH]; [reflexivity|]. cbn. now rewrite IH.
Qed.

(** X2. Whatever the character database, a space or an underscore
    between two parts of a name does not show in the normal form; and
    when neither part holds the Greek capital sigma, the one letter
    [str.lower] reads in its context, the normal form of a concatenation
    is the concatenation of the normal forms. *)
Theorem normalize_name_app :
  forall d x y,
    Unicode.normalize_name d (x ++ [Unicode.space] ++ y)%list
    = Unicode.normalize_name d (x ++ y)%list
    /\ Unicode.normalize_name d (x ++ [Unicode.underscore] ++ y)%list
       = Unicode.normalize_name d (x ++ y)%list
    /\ (~ In Unicode.capital_sigma x -> ~ In Unicode.capital_sigma y ->
        Unicode.normalize_name d (x ++ y)%list
        = (Unicode.normalize_name d x ++ Unicode.normalize_name d y)%list).
Proof.
  intros d x y. rewrite !unicode_normalize_eq.
  rewrite !filter_separators_app by reflexivity.
  split; [reflexivity|]. split; [reflexivity|].
  intros Hx Hy. unfold Unicode.lower.
  assert (Hf : forall l, ~ In Unicode.capital_sigma l ->
             ~ In Unicode.capital_sigma
                 (filter (fun c => negb (Unicode.is_separator c)) l)).
  { intros l Hl Hin. apply filter_In in Hin. tauto. }
  rewrite filter_app, !lower_from_plain.
  - apply flat_map_app.
  - now apply Hf.
  - now apply Hf.
  - intros Hin. apply in_app_or in Hin as [Hin|Hin]; [now apply (Hf x)|now apply (Hf y)].
Qed.

Lemma normalize_name_app_witness :
  Unicode.normalize_name Unicode.excerpt (Utf8.codes "Smoke_" ++ Utf8.codes "Test")%list
  = (Unicode.normalize_name Unicode.excerpt (Utf8.codes "Smoke_")
     ++ Unicode.normalize_name Unicode.excerpt (Utf8.codes "Test"))%list.
Proof.
  apply (proj2 (proj2 (normalize_name_app Unicode.excerpt
                         (Utf8.codes "Smoke_") (Utf8.codes "Test"))));
    vm_compute; intuition discriminate.
Defined.

(** X3. The normal form of an ASCII name holds no space, no underscore
    and no upper-case letter, and is never longer than the name. *)
Theorem normalize_name_range :
  forall d s,
    Unicode.ascii_facts d ->
    Utf8.is_ascii s = true ->
    (forall c, In c (Unicode.normalize_name d (Utf8.codes s)) ->
               c <> Unicode.space /\ c <> Unicode.underscore
               /\ Unicode.is_upper c = false)
    /\ (length (Unicode.normalize_name d (Utf8.codes s)) <= length (Utf8.codes s))%nat.
Proof.
  intros d s Hd Hs. rewrite (unicode_normalize_ascii Hd s Hs), normalize_name_spec.
  split.
  - intros c Hc. unfold Utf8.codes in Hc. apply in_map_iff in Hc as (a & <- & Ha).
    destruct (normalize_spec_chars s a Ha) as [Hsep Hlow].
    rewrite <- separator_code in Hsep. unfold Unicode.is_separator in Hsep.
    apply orb_false_iff in Hsep as [H1 H2]. apply N.eqb_neq in H1, H2.
    auto using lower_char_not_upper.
  - rewrite !length_codes. apply normalize_spec_length.
Qed.

Lemma normalize_name_range_witness :
  In 107%N (Unicode.normalize_name Unicode.excerpt (Utf8.codes "Smo_Ke"))
  /\ 107%N <> Unicode.space /\ 107%N <> Unicode.underscore
  /\ Unicode.is_upper 107 = false.
Proof.
  assert (H : In 107%N (Unicode.normalize_name Unicode.excerpt (Utf8.codes "Smo_Ke")))
    by (vm_compute; tauto).
  split; [exact H|].
  exact (proj1 (@normalize_name_range Unicode.excerpt "Smo_Ke"
                  excerpt_ascii_facts eq_refl) 107%N H).
Defined.

(** ** The rules on the path and the name of the document *)

Section PathRules.

Lemma suffix_apply_eq suite k :
  RequiredRobotFileSuffxAndFolder.apply suite k
  = (Val tt,
     (k ++ (if PyStr.contains ".robot" (Suite.path suite) then []
            else [finding RequiredRobotFileSuffxAndFolder.self suite
                    ("Required file suffix is " ++ dquote ++ ".robot" ++ dquote) 0])
        ++ (if PyStr.contains "5GC" (Suite.path suite) then []
            else [finding RequiredRobotFileSuffxAndFolder.self suite
                    ("Required Parent folder is " ++ dquote ++ "5GC*" ++ dquote) 0]))%list).
Proof.
  unfold RequiredRobotFileSuffxAndFolder.apply, bind, report, ret.
  destruct (PyStr.contains ".robot" (Suite.path suite));
    destruct (PyStr.contains "5GC" (Suite.path suite));
    cbn [negb app]; rewrite ?app_nil_r; try rewrite <- app_assoc; reflexivity.
Qed.

Lemma period_apply_eq suite k :
  PeriodInSuiteName.apply suite k
  = (Val tt,
     (k ++ (if PyStr.contains "." (Suite.name suite)
            then [finding PeriodInSuiteName.self suite
                    ("'.' in suite name '" ++ Suite.name suite ++ "'") 0]
            else []))%list).
Proof.
  unfold PeriodInSuiteName.apply.
  destruct (PyStr.contains "." (Suite.name suite)); cbn;
    [reflexivity|now rewrite app_nil_r].
Qed.

End PathRules.

(** X4. The suffix-and-folder rule never raises and files at most two
    findings, both at line 0: the suffix finding exactly when [.robot]
    occurs nowhere in the path (an occurrence in the middle of the path
    is enough to pass), the folder finding exactly when [5GC] occurs
    nowhere in the path; the suffix finding comes first. *)
Theorem suffix_and_folder_rule :
  forall suite k,
    let suffix := finding RequiredRobotFileSuffxAndFolder.self suite
                    ("Required file suffix is " ++ dquote ++ ".robot" ++ dquote) 0 in
    let folder := finding RequiredRobotFileSuffxAndFolder.self suite
                    ("Required Parent folder is " ++ dquote ++ "5GC*" ++ dquote) 0 in
    let out := findings (RequiredRobotFileSuffxAndFolder.apply suite) in
    RequiredRobotFileSuffxAndFolder.apply suite k = (Val tt, (k ++ out)%list)
    /\ (out = [] \/ out = [suffix] \/ out = [folder] \/ out = [suffix; folder])
    /\ (In suffix out
        <-> ~ exists pre post, Suite.path suite = pre ++ ".robot" ++ post)
    /\ (In folder out
        <-> ~ exists pre post, Suite.path suite = pre ++ "5GC" ++ post).
Proof.
  intros suite k. cbv zeta. unfold findings. rewrite !suffix_apply_eq.
  cbn [snd app]. rewrite <- !contains_iff.
  assert (Hne : finding RequiredRobotFileSuffxAndFolder.self suite
                  ("Required file suffix is " ++ dquote ++ ".robot" ++ dquote) 0
                <> finding RequiredRobotFileSuffxAndFolder.self suite
                     ("Required Parent folder is " ++ dquote ++ "5GC*" ++ dquote) 0).
  { intros E. apply (f_equal v_message) in E. vm_compute in E. discriminate E. }
  destruct (PyStr.contains ".robot" (Suite.path suite));
    destruct (PyStr.contains "5GC" (Suite.path suite)); cbn [app In];
    (split; [reflexivity|]); (split; [tauto|]); split; split;
    try (intros [H|H]); try (intros H); try (intros E);
    try discriminate; try tauto; try congruence;
    try (exfalso; now apply H).
Qed.

(** X5. The suite-name rule never raises; it files one finding, at line 0
    and quoting the name, exactly when the name holds a period anywhere,
    and nothing otherwise. *)
Theorem period_rule :
  forall suite k,
    let out := findings (PeriodInSuiteName.apply suite) in
    PeriodInSuiteName.apply suite k = (Val tt, (k ++ out)%list)
    /\ ((exists pre post, Suite.name suite = pre ++ "." ++ post) ->
        out = [finding PeriodInSuiteName.self suite
                 ("'.' in suite name '" ++ Suite.name suite ++ "'") 0])
    /\ ((~ exists pre post, Suite.name suite = pre ++ "." ++ post) -> out = []).
Proof.
  intros suite k. cbv zeta. unfold findings. rewrite !period_apply_eq.
  cbn [snd app]. rewrite <- !contains_iff.
  destruct (PyStr.contains "." (Suite.name suite)).
  - split; [reflexivity|]. split; [reflexivity|]. intros H. now contradiction H.
  - split; [reflexivity|]. split; [discriminate|reflexivity].
Qed.

Lemma period_rule_witness :
  (exists pre post, Suite.name (Suite.mk "a/b.robot" "login.smoke" [] [] [])
                    = pre ++ "." ++ post)
  /\ findings (PeriodInSuiteName.apply (Suite.mk "a/b.robot" "login.smoke" [] [] []))
     = [finding PeriodInSuiteName.self (Suite.mk "a/b.robot" "login.smoke" [] [] [])
          "'.' in suite name 'login.smoke'" 0].
Proof.
  assert (H : exists pre post,
             Suite.name (Suite.mk "a/b.robot" "login.smoke" [] [] [])
             = pre ++ "." ++ post) by (now exists "login", "smoke").
  split; [exact H|].
  exact (proj1 (proj2 (period_rule (Suite.mk "a/b.robot" "login.smoke" [] [] []) [])) H).
Defined.

(** ** More on duplicate names *)

Section DuplicateFacts.

Variables (A : Type) (name : A -> string) (v : A -> Violation).

Let norm (x : A) : string := normalize_name (name x).


Lemma mem_iff (n : string) (c : list string) : PyStr.mem n c = true <-> In n c.
Proof.
  unfold PyStr.mem. rewrite existsb_exists. split.
  - intros (m & Hm & E). apply String.eqb_eq in E. now subst.
  - intros H. exists n. split; [exact H|apply String.eqb_refl].
Qed.



Lemma nodup_snoc_length (n : string) (c : list string) :
  length (nodup string_dec (c ++ [n]))
  = if PyStr.mem n c then length (nodup string_dec c)
    else S (length (nodup string_dec c)).
Proof.
  induction c as [|a c IH]; [reflexivity|].
  cbn [app nodup].
  destruct (in_dec string_dec a (c ++ [n])) as [Hin|Hin];
    destruct (in_dec string_dec a c) as [Hc|Hc].
  - rewrite IH. destruct (PyStr.mem n (a :: c)) eqn:E1;
      destruct (PyStr.mem n c) eqn:E2; try reflexivity.
    + exfalso. apply mem_iff in E1.
      assert (~ In n c) as Hn by (rewrite <- mem_iff; congruence).
      destruct E1 as [E|E]; [subst; contradiction|contradiction].
    + exfalso. apply mem_iff in E2. assert (In n (a :: c)) as H by now right.
      apply mem_iff in H. congruence.
  - apply in_app_or in Hin as [Hin|[E|[]]]; [contradiction|]. subst a.
    rewrite IH.
    assert (PyStr.mem n c = false) as ->.
    { destruct (PyStr.mem n c) eqn:E; [|reflexivity].
      apply mem_iff in E. contradiction. }
    assert (PyStr.mem n (n :: c) = true) as -> by (apply mem_iff; now left).
    reflexivity.
  - exfalso. apply Hin, in_or_app. now left.
  - cbn [length]. rewrite IH.
    assert (PyStr.mem n (a :: c) = PyStr.mem n c) as ->; [|destruct (PyStr.mem n c); reflexivity].
    apply eq_true_iff_eq. rewrite !mem_iff. cbn [In]. split; [|tauto].
    intros [->|H]; [|exact H]. exfalso. apply Hin, in_or_app. right. now left.
Qed.

Variable body : A -> list string -> M (signal * list string).

Hypothesis body_step : forall x cache k,
  body x cache k
  = (Val (Next, (cache ++ [norm x])%list),
     (k ++ (if PyStr.mem (norm x) cache then [v x] else []))%list).

Lemma walk_count (l : list A) :
  forall cache k, exists out,
    for_acc l body cache k
    = (Val (Next, (cache ++ map norm l)%list), (k ++ out)%list)
    /\ (length out + length (nodup string_dec (cache ++ map norm l))
        = length l + length (nodup string_dec cache))%nat.
Proof.
  induction l as [|x l IH]; intros cache k.
  - exists []. cbn. rewrite !app_nil_r. auto.
  - cbn [for_acc]. erewrite bind_val by apply body_step. cbn [fst snd].
    destruct (IH (cache ++ [norm x])%list
                (k ++ (if PyStr.mem (norm x) cache then [v x] else []))%list)
      as (out & Hrun & Hlen).
    exists ((if PyStr.mem (norm x) cache then [v x] else []) ++ out)%list.
    rewrite Hrun. cbn [map]. rewrite <- !app_assoc. cbn [app].
    split; [reflexivity|].
    rewrite <- app_assoc in Hlen. cbn [app] in Hlen.
    rewrite nodup_snoc_length in Hlen. rewrite length_app. cbn [length].
    destruct (PyStr.mem (norm x) cache); cbn [length]; lia.
Qed.

(** Findings and distinct normalized names add up to the entries. *)
Lemma duplicates_count (l : list A) :
  (length (duplicates_spec name v l) + length (nodup string_dec (map norm l))
   = length l)%nat.
Proof.
  destruct (walk_count l [] []) as (out & Hrun & Hlen).
  pose proof (walk_all name v body body_step l []) as Hall.
  unfold bind in Hall. rewrite Hrun in Hall. cbn in Hall.
  injection Hall as ->. cbn in Hlen. lia.
Qed.

End DuplicateFacts.

Lemma keyword_findings_eq suite :
  findings (DuplicateKeywordNames.apply suite)
  = duplicates_spec Keyword.name (keyword_finding suite) (Suite.keywords suite).
Proof.
  unfold findings, DuplicateKeywordNames.apply.
  rewrite (walk_all Keyword.name (keyword_finding suite)); [reflexivity|].
  intros; apply keyword_body_step.
Qed.

Lemma testcase_findings_eq suite :
  findings (DuplicateTestNames.apply suite)
  = duplicates_spec Testcase.name (testcase_finding suite) (Suite.testcases suite).
Proof.
  unfold findings, DuplicateTestNames.apply.
  rewrite (walk_all Testcase.name (testcase_finding suite)); [reflexivity|].
  intros; apply testcase_body_step.
Qed.





(** ** Which rules can raise *)

(** X9. Six of the nine rules end normally on every document, whatever
    its tables, rows and cells hold: only the three rules that index rows
    or test cases can raise. *)
Theorem rules_that_never_raise :
  forall suite k,
    fst (RequiredRobotFileSuffxAndFolder.apply suite k) = Val tt
    /\ fst (RequiredAutherInfo.apply suite k) = Val tt
    /\ fst (PeriodInSuiteName.apply suite k) = Val tt
    /\ fst (InvalidTable.apply suite k) = Val tt
    /\ fst (DuplicateKeywordNames.apply suite k) = Val tt
    /\ fst (DuplicateTestNames.apply suite k) = Val tt.
Proof.
  intros suite k.
  rewrite suffix_apply_eq, author_apply_eq, period_apply_eq, invalid_table_apply_eq.
  unfold DuplicateKeywordNames.apply, DuplicateTestNames.apply.
  rewrite (walk_all Keyword.name (keyword_finding suite))
    by (intros; apply keyword_body_step).
  rewrite (walk_all Testcase.name (testcase_finding suite))
    by (intros; apply testcase_body_step).
  repeat split.
Qed.

(** ** Early return, and the limits of the test-case rule *)

Section EarlyReturn.

Lemma scan_rows_stops (key : string) (pre post : list Row.t) (row : Row.t) :
  forallb has_first_cell pre = true -> first_cell_is key row = true ->
  scan_rows key (pre ++ row :: post) = Val Return.
Proof.
  intros Hpre Hrow. induction pre as [|r pre IH].
  - cbn [app scan_rows]. unfold first_cell_is in Hrow.
    destruct (Row.cells row) as [|c0 rest]; [discriminate|]. now rewrite Hrow.
  - cbn [forallb] in Hpre. apply andb_true_iff in Hpre as [Hr Hpre].
    cbn [app scan_rows]. unfold has_first_cell in Hr.
    destruct (Row.cells r) as [|c0 rest]; [discriminate|].
    destruct (String.eqb _ key); [reflexivity|now apply IH].
Qed.

Lemma snoc_not_self {A} (k : list A) (x : A) : (k ++ [x])%list <> k.
Proof.
  intros H. apply (f_equal (@length A)) in H. rewrite length_app in H. cbn in H. lia.
Qed.

End EarlyReturn.

(** X11. The documentation rule and the test-case rule return at the
    first settings-table row they look for and read no row after it: when
    the rows before a [documentation] row (a [test template] row) all have
    a first cell, the rule ends normally without a finding, whatever the
    later rows hold, rows without cells included, and whatever the limit
    and the number of test cases. *)
Theorem scan_returns_at_first_match :
  forall suite pre row post k,
    setting_rows suite = (pre ++ row :: post)%list ->
    forallb has_first_cell pre = true ->
    (first_cell_is "documentation" row = true ->
     RequireSuiteDocumentation.apply suite k = (Val tt, k))
    /\ (first_cell_is "test template" row = true ->
        forall tm, TooManyTestCases.apply tm suite k = (Val tt, k)).
Proof.
  intros suite pre row post k Hrows Hpre. split.
  - intros Hrow. rewrite documentation_apply_eq, Hrows.
    now rewrite scan_rows_stops.
  - intros Hrow tm. rewrite too_many_apply_eq, Hrows.
    now rewrite scan_rows_stops.
Qed.

Lemma scan_returns_at_first_match_witness :
  let suite :=
    Suite.mk "5GC/a.robot" "a"
      [Table.mk SettingTable "Settings" 1
         [Row.mk ["Library"; "Collections"] 2; Row.mk ["DOCUMENTATION"; "x"] 3;
          Row.mk [] 4]] [] [] in
  setting_rows suite
  = ([Row.mk ["Library"; "Collections"] 2] ++ Row.mk ["DOCUMENTATION"; "x"] 3
       :: [Row.mk [] 4])%list
  /\ forallb has_first_cell [Row.mk ["Library"; "Collections"] 2] = true
  /\ first_cell_is "documentation" (Row.mk ["DOCUMENTATION"; "x"] 3) = true
  /\ RequireSuiteDocumentation.apply suite [] = (Val tt, []).
Proof.
  cbv zeta. split; [reflexivity|]. split; [reflexivity|]. split; [reflexivity|].
  exact (proj1 (@scan_returns_at_first_match
                  (Suite.mk "5GC/a.robot" "a"
                     [Table.mk SettingTable "Settings" 1
                        [Row.mk ["Library"; "Collections"] 2;
                         Row.mk ["DOCUMENTATION"; "x"] 3; Row.mk [] 4]] [] [])
                  [Row.mk ["Library"; "Collections"] 2]
                  (Row.mk ["DOCUMENTATION"; "x"] 3) [Row.mk [] 4] []
                  eq_refl eq_refl) eq_refl).
Defined.

(** X12. On a document whose settings-table rows all have a first cell,
    none of them a test template row, the test-case rule with a negative
    limit fires whatever the number [n] of test cases: for a limit [-j]
    with [1 <= j <= n] it files its finding at the test case [j] places
    from the end (index [n - j]); for [j > n], so also for every negative
    limit when there is no test case, it raises [IndexError] and files
    nothing. *)
Theorem too_many_negative_limit :
  forall tm suite k,
    first_cells_present suite = true ->
    has_setting "test template" suite = false ->
    TooManyTestCases.max_allowed tm < 0 ->
    let n := Z.of_nat (length (Suite.testcases suite)) in
    let m := TooManyTestCases.max_allowed tm in
    (- n <= m ->
     exists tc,
       nth_error (Suite.testcases suite) (Z.to_nat (n + m)) = Some tc
       /\ TooManyTestCases.apply tm suite k
          = (Val tt,
             (k ++ [finding TooManyTestCases.info suite (TooManyTestCases.message n m)
                      (Testcase.linenumber tc)])%list))
    /\ (m < - n ->
        TooManyTestCases.apply tm suite k = (Exc (IndexError OfList), k)).
Proof.
  intros tm suite k Hp Ht Hm n m.
  rewrite too_many_apply_eq, scan_rows_present by exact Hp.
  unfold has_setting in Ht. rewrite Ht. cbn zeta. fold n m.
  destruct (Z.gtb_spec n m); [|lia].
  unfold py_index. fold n. fold m.
  destruct (Z.leb_spec 0 m); [lia|]. cbn [andb].
  destruct (Z.ltb_spec m 0); [|lia]. rewrite andb_true_r.
  split.
  - intros Hle. destruct (Z.leb_spec (- n) m); [|lia].
    destruct (nth_error (Suite.testcases suite) (Z.to_nat (n + m))) as [tc|] eqn:E.
    + now exists tc.
    + apply nth_error_None in E. lia.
  - intros Hlt. destruct (Z.leb_spec (- n) m); [lia|reflexivity].
Qed.

Lemma too_many_negative_limit_witness :
  first_cells_present Sample.three = true
  /\ has_setting "test template" Sample.three = false
  /\ TooManyTestCases.max_allowed (TooManyTestCases.configure TooManyTestCases.default (-2)) < 0
  /\ exists tc,
       nth_error (Suite.testcases Sample.three) 1 = Some tc
       /\ TooManyTestCases.apply
            (TooManyTestCases.configure TooManyTestCases.default (-2)) Sample.three []
          = (Val tt,
             [finding TooManyTestCases.info Sample.three
                (TooManyTestCases.message 3 (-2)) (Testcase.linenumber tc)]).
Proof.
  split; [reflexivity|]. split; [reflexivity|]. split; [reflexivity|].
  exact (proj1 (@too_many_negative_limit
                  (TooManyTestCases.configure TooManyTestCases.default (-2))
                  Sample.three [] eq_refl eq_refl eq_refl)
           ltac:(discriminate)).
Defined.

(** X13. Raising a limit that is not negative never adds a finding: a
    suite that passes the test-case rule under a limit passes it under
    every larger limit. *)
Theorem too_many_limit_monotone :
  forall suite m1 m2 k,
    0 <= m1 -> m1 <= m2 ->
    snd (TooManyTestCases.apply (TooManyTestCases.mk m1) suite k) = k ->
    snd (TooManyTestCases.apply (TooManyTestCases.mk m2) suite k) = k.
Proof.
  intros suite m1 m2 k H0 Hle. rewrite !too_many_apply_eq.
  cbn [TooManyTestCases.max_allowed].
  destruct (scan_rows _ _) as [[| |]|e]; cbn zeta; try (intros; reflexivity);
    (destruct (Z.gtb_spec (Z.of_nat (length (Suite.testcases suite))) m1) as [Hgt|Hn];
     [|intros _; destruct (Z.gtb_spec (Z.of_nat (length (Suite.testcases suite))) m2);
       [lia|reflexivity]]);
    rewrite py_index_nonneg by exact H0;
    (destruct (nth_error _ (Z.to_nat m1)) eqn:E;
     [cbn [snd]; intros H; now apply snoc_not_self in H
     |apply nth_error_None in E; lia]).
Qed.

Lemma too_many_limit_monotone_witness :
  0 <= 11 /\ 11 <= 12
  /\ snd (TooManyTestCases.apply (TooManyTestCases.mk 11) Sample.eleven []) = []
  /\ snd (TooManyTestCases.apply (TooManyTestCases.mk 12) Sample.eleven []) = [].
Proof.
  split; [discriminate|]. split; [discriminate|]. split; [reflexivity|].
  exact (@too_many_limit_monotone Sample.eleven 11 12 []
           ltac:(discriminate) ltac:(discriminate) eq_refl).
Defined.

(** ** What the rules read *)

Section Reads.

Lemma table_mentions_occurrence (tokens : list string) (table : Table.t)
    (row : Row.t) (cell pre w post : string) :
  In row (Table.rows table) -> In cell (Row.cells row) ->
  cell = pre ++ w ++ post -> In (PyStr.lower w) tokens ->
  table_mentions tokens table = true.
Proof.
  intros Hrow Hcell -> Hw. apply table_mentions_iff.
  exists row, (pre ++ w ++ post), (PyStr.lower w). repeat split; auto.
  apply contains_iff. exists (PyStr.lower pre), (PyStr.lower post).
  now rewrite !lower_app.
Qed.

Lemma author_contact_distinct suite : author_missing suite <> contact_missing suite.
Proof. intros E. apply (f_equal v_message) in E. discriminate E. Qed.

Lemma finding_path info s1 s2 msg line :
  Suite.path s1 = Suite.path s2 -> finding info s1 msg line = finding info s2 msg line.
Proof. unfold finding. now intros ->. Qed.

End Reads.

(** X14. The author tokens and the contact tokens are looked for as
    substrings, in any letter case: when every settings table of a
    document has a cell in which an author token occurs anywhere, the rule
    files no author finding, and likewise for the contact tokens and the
    contact finding. *)
Theorem author_rule_accepts_occurrences :
  forall suite,
    ((forall table, In table (setting_tables suite) ->
        exists row cell pre w post,
          In row (Table.rows table) /\ In cell (Row.cells row)
          /\ cell = pre ++ w ++ post
          /\ In (PyStr.lower w) RequiredAutherInfo.author_tokens) ->
     ~ In (author_missing suite) (findings (RequiredAutherInfo.apply suite)))
    /\ ((forall table, In table (setting_tables suite) ->
           exists row cell pre w post,
             In row (Table.rows table) /\ In cell (Row.cells row)
             /\ cell = pre ++ w ++ post
             /\ In (PyStr.lower w) RequiredAutherInfo.contact_tokens) ->
        ~ In (contact_missing suite) (findings (RequiredAutherInfo.apply suite))).
Proof.
  intros suite. unfold findings. rewrite author_apply_eq. cbn [snd app].
  pose proof (@author_contact_distinct suite) as Hne.
  split; intros H Hin; apply in_flat_map in Hin as (table & Ht & Hin);
    destruct (H table Ht) as (row & cell & pre & w & post & Hrow & Hcell & E & Hw);
    unfold author_findings in Hin.
  - pose proof (@table_mentions_occurrence _ _ _ _ _ _ _ Hrow Hcell E Hw) as Hm.
    rewrite Hm in Hin.
    destruct (table_mentions RequiredAutherInfo.contact_tokens table);
      cbn in Hin; intuition congruence.
  - pose proof (@table_mentions_occurrence _ _ _ _ _ _ _ Hrow Hcell E Hw) as Hm.
    rewrite Hm in Hin.
    destruct (table_mentions RequiredAutherInfo.author_tokens table);
      cbn in Hin; intuition congruence.
Qed.

Lemma author_rule_accepts_occurrences_witness :
  (forall table, In table (setting_tables Sample.modified_by) ->
     exists row cell pre w post,
       In row (Table.rows table) /\ In cell (Row.cells row)
       /\ cell = pre ++ w ++ post
       /\ In (PyStr.lower w) RequiredAutherInfo.author_tokens)
  /\ ~ In (author_missing Sample.modified_by)
         (findings (RequiredAutherInfo.apply Sample.modified_by)).
Proof.
  assert (H : forall table, In table (setting_tables Sample.modified_by) ->
                exists row cell pre w post,
                  In row (Table.rows table) /\ In cell (Row.cells row)
                  /\ cell = pre ++ w ++ post
                  /\ In (PyStr.lower w) RequiredAutherInfo.author_tokens).
  { intros table [<-|[]].
    exists (Row.mk ["Documentation"; "Modified: 1/1/2020 Jane Doe"] 2),
      "Modified: 1/1/2020 Jane Doe", EmptyString, "Modified", ": 1/1/2020 Jane Doe".
    cbn. tauto. }
  split; [exact H|].
  exact (proj1 (author_rule_accepts_occurrences Sample.modified_by) H).
Defined.

Lemma fold_ascii_fold (c : N) : Re.sre_fold (Unicode.ascii_fold c) = Re.sre_fold c.
Proof.
  unfold Unicode.ascii_fold, Unicode.is_upper, Re.sre_fold.
  destruct ((65 <=? c)%N && (c <=? 90)%N)%bool eqn:E; [|now rewrite E].
  apply andb_true_iff in E as [E1 E2]. apply N.leb_le in E1, E2.
  destruct (N.leb_spec 65 (c + 32)); [|lia].
  destruct (N.leb_spec (c + 32) 90); [lia|]. cbn [andb].
  destruct (N.eqb_spec (c + 32) 304); [lia|].
  destruct (N.eqb_spec (c + 32) 305); [lia|]. cbn [orb].
  destruct (N.eqb_spec (c + 32) 383); [lia|].
  destruct (N.eqb_spec (c + 32) 8490); [lia|reflexivity].
Qed.

Lemma ascii_fold_newline (c : N) :
  (Unicode.ascii_fold c =? Re.newline_code)%N = (c =? Re.newline_code)%N.
Proof.
  unfold Unicode.ascii_fold, Unicode.is_upper, Re.newline_code.
  destruct ((65 <=? c)%N && (c <=? 90)%N)%bool eqn:E; [|reflexivity].
  apply andb_true_iff in E as [E1 E2]. apply N.leb_le in E1, E2.
  destruct (N.eqb_spec (c + 32) 10); [lia|].
  destruct (N.eqb_spec c 10); [lia|reflexivity].
Qed.

Lemma chomp_ascii_fold (h : list N) :
  map Unicode.ascii_fold (chomp h) = chomp (map Unicode.ascii_fold h).
Proof.
  induction h as [|c s IH]; [reflexivity|].
  cbn [chomp map]. destruct s as [|d s].
  - cbn [map]. rewrite ascii_fold_newline.
    destruct (c =? Re.newline_code)%N; reflexivity.
  - cbn [map] in IH |- *. now rewrite IH.
Qed.

Lemma recognized_ascii_fold (h : list N) :
  recognized_header (chomp (map Unicode.ascii_fold h)) = recognized_header (chomp h).
Proof.
  unfold recognized_header. rewrite <- chomp_ascii_fold, map_map.
  apply existsb_ext_in. intros form _. f_equal.
  apply map_ext. intros c. apply fold_ascii_fold.
Qed.

(** X15. The header rule ignores the case of ASCII letters: two tables
    whose header texts are the same code points once the ASCII letters
    are put in lower case are both reported or both accepted. *)
Theorem invalid_table_ignores_case :
  forall suite t1 t2 k,
    map Unicode.ascii_fold (Utf8.decode (Table.name t1))
    = map Unicode.ascii_fold (Utf8.decode (Table.name t2)) ->
    (snd (InvalidTable.table_body suite t1 k) = k
     <-> snd (InvalidTable.table_body suite t2 k) = k).
Proof.
  intros suite t1 t2 k E. unfold InvalidTable.table_body.
  rewrite !table_header_match.
  rewrite <- (recognized_ascii_fold (Utf8.decode (Table.name t1))), E,
    recognized_ascii_fold.
  destruct (recognized_header _); cbn; [tauto|].
  split; intros H; now apply snoc_not_self in H.
Qed.

Lemma invalid_table_ignores_case_witness :
  map Unicode.ascii_fold (Utf8.decode (Table.name (Table.mk OtherTable "KEYWORDS" 4 [])))
  = map Unicode.ascii_fold (Utf8.decode (Table.name (Table.mk SettingTable "Keywords" 9 [])))
  /\ (snd (InvalidTable.table_body Sample.blank (Table.mk OtherTable "KEYWORDS" 4 []) []) = []
      <-> snd (InvalidTable.table_body Sample.blank
                 (Table.mk SettingTable "Keywords" 9 []) []) = []).
Proof.
  split; [reflexivity|].
  exact (@invalid_table_ignores_case Sample.blank
           (Table.mk OtherTable "KEYWORDS" 4 [])
           (Table.mk SettingTable "Keywords" 9 []) [] eq_refl).
Defined.

(** X16. The import, author, documentation and test-case rules read the
    settings tables, the path and the test cases of a document and
    nothing else: two documents that agree on these get the same result
    from each of the four rules, whatever their other tables, their
    names and their keywords are. *)
Theorem rules_read_settings_only :
  forall s1 s2 tm k,
    Suite.path s1 = Suite.path s2 ->
    setting_tables s1 = setting_tables s2 ->
    Suite.testcases s1 = Suite.testcases s2 ->
    RequirdNoCurdirInImporting.apply s1 k = RequirdNoCurdirInImporting.apply s2 k
    /\ RequiredAutherInfo.apply s1 k = RequiredAutherInfo.apply s2 k
    /\ RequireSuiteDocumentation.apply s1 k = RequireSuiteDocumentation.apply s2 k
    /\ TooManyTestCases.apply tm s1 k = TooManyTestCases.apply tm s2 k.
Proof.
  intros s1 s2 tm k Hp Ht Hc.
  assert (Hr : setting_rows s1 = setting_rows s2) by (unfold setting_rows; now rewrite Ht).
  assert (Hf : forall info msg line, finding info s1 msg line = finding info s2 msg line)
    by (intros; now apply finding_path).
  assert (Hcur : forall l, flat_map (curdir_findings s1) l
                           = flat_map (curdir_findings s2) l).
  { intros l. apply flat_map_ext. intros row. unfold curdir_findings. now rewrite Hf. }
  assert (Haut : forall l, flat_map (author_findings s1) l
                           = flat_map (author_findings s2) l).
  { intros l. apply flat_map_ext. intros t.
    unfold author_findings, author_missing, contact_missing. now rewrite !Hf. }
  rewrite !curdir_apply_eq, !curdir_loop, !author_apply_eq,
    !documentation_apply_eq, !too_many_apply_eq.
  unfold documentation_anchor. rewrite Hr, Ht, Hc, Hcur, Haut, Hf.
  split; [reflexivity|]. split; [reflexivity|]. split; [reflexivity|].
  cbn zeta. destruct (scan_rows _ _) as [[| |]|e]; try reflexivity;
    (destruct (_ >? _); [|reflexivity]);
    destruct (py_index _ _); try reflexivity; now rewrite Hf.
Qed.

Lemma rules_read_settings_only_witness :
  let s1 := Sample.library_only in
  let s2 := Suite.mk "5GC000165/login.robot" "other"
              [Table.mk SettingTable "Settings" 4 [Row.mk ["Library"; "Collections"] 5];
               Table.mk OtherTable "Keywords" 9 [Row.mk ["Documentation"] 10]]
              [Keyword.mk "Log In" 10] [] in
  Suite.path s1 = Suite.path s2
  /\ setting_tables s1 = setting_tables s2
  /\ RequireSuiteDocumentation.apply s1 [] = RequireSuiteDocumentation.apply s2 [].
Proof.
  cbv zeta. split; [reflexivity|]. split; [reflexivity|].
  exact (proj1 (proj2 (proj2
           (@rules_read_settings_only Sample.library_only
              (Suite.mk "5GC000165/login.robot" "other"
                 [Table.mk SettingTable "Settings" 4
                    [Row.mk ["Library"; "Collections"] 5];
                  Table.mk OtherTable "Keywords" 9 [Row.mk ["Documentation"] 10]]
                 [Keyword.mk "Log In" 10] [])
              TooManyTestCases.default [] eq_refl eq_refl eq_refl)))).
Defined.

(** ** How many findings a rule can file *)

Section Bounds.

Lemma length_flat_map_le {A B} (f : A -> list B) (c : nat) (l : list A) :
  (forall x, (length (f x) <= c)%nat) ->
  (length (flat_map f l) <= c * length l)%nat.
Proof.
  intros Hf. induction l as [|x l IH]; [cbn; lia|].
  cbn [flat_map length]. rewrite length_app. specialize (Hf x). lia.
Qed.

Lemma indexable_prefix_length (rows : list Row.t) :
  (length (indexable_prefix rows) <= length rows)%nat.
Proof.
  induction rows as [|row rows IH]; [reflexivity|].
  cbn [indexable_prefix]. destruct (row_indexable row); cbn [length]; lia.
Qed.

End Bounds.

(** X17. On every document, rows without cells and any limit included:
    the documentation rule and the test-case rule file at most one
    finding, the import rule at most one for each settings-table row, the
    author rule at most two for each settings table, the header rule at
    most one for each table, and a duplicate rule at most one less than
    its sequence has entries, none when the sequence is empty. *)
Theorem findings_are_bounded :
  forall tm suite,
    (length (findings (RequireSuiteDocumentation.apply suite)) <= 1)%nat
    /\ (length (findings (TooManyTestCases.apply tm suite)) <= 1)%nat
    /\ (length (findings (RequirdNoCurdirInImporting.apply suite))
        <= length (setting_rows suite))%nat
    /\ (length (findings (RequiredAutherInfo.apply suite))
        <= 2 * length (setting_tables suite))%nat
    /\ (length (findings (InvalidTable.apply suite)) <= length (Suite.tables suite))%nat
    /\ (length (findings (DuplicateKeywordNames.apply suite))
        <= Nat.pred (length (Suite.keywords suite)))%nat
    /\ (length (findings (DuplicateTestNames.apply suite))
        <= Nat.pred (length (Suite.testcases suite)))%nat.
Proof.
  intros tm suite.
  split; [|split; [|split; [|split; [|split; [|split]]]]].
  - unfold findings. rewrite documentation_apply_eq.
    destruct (scan_rows _ _) as [[| |]|e]; cbn; lia.
  - unfold findings. rewrite too_many_apply_eq.
    destruct (scan_rows _ _) as [[| |]|e]; cbn zeta; cbn [snd length]; try lia;
      (destruct (_ >? _); [|cbn; lia]); destruct (py_index _ _); cbn; lia.
  - unfold findings. rewrite curdir_apply_eq, curdir_loop. cbn [app].
    assert (length (flat_map (curdir_findings suite)
                      (indexable_prefix (setting_rows suite)))
            <= length (setting_rows suite))%nat as H.
    { pose proof (indexable_prefix_length (setting_rows suite)) as Hp.
      pose proof (@length_flat_map_le _ _ (curdir_findings suite) 1%nat
                    (indexable_prefix (setting_rows suite))) as Hl.
      assert (forall row, (length (curdir_findings suite row) <= 1)%nat) as Hrow.
      { intros row. unfold curdir_findings.
        destruct (Row.cells row) as [|c0 [|c1 rest]]; cbn; try lia.
        destruct (_ && _)%bool; cbn; lia. }
      specialize (Hl Hrow). lia. }
    destruct (forallb row_indexable (setting_rows suite)); exact H.
  - unfold findings. rewrite author_apply_eq. cbn [snd app].
    apply length_flat_map_le. intros t. unfold author_findings.
    destruct (table_mentions RequiredAutherInfo.author_tokens t);
      destruct (table_mentions RequiredAutherInfo.contact_tokens t); cbn; lia.
  - unfold findings. rewrite invalid_table_apply_eq. cbn [snd app].
    pose proof (@length_flat_map_le _ _ (header_findings suite) 1%nat
                  (Suite.tables suite)) as H.
    assert (forall t, (length (header_findings suite t) <= 1)%nat) as Ht.
    { intros t. unfold header_findings. destruct (recognized_header _); cbn; lia. }
    specialize (H Ht). lia.
  - rewrite keyword_findings_eq.
    pose proof (duplicates_count Keyword.name (keyword_finding suite)
                  (DuplicateKeywordNames.keyword_body suite)
                  (fun x c k => keyword_body_step suite x c k)
                  (Suite.keywords suite)) as H.
    destruct (Suite.keywords suite) as [|kw kws] eqn:E; [cbn in *; lia|].
    assert (1 <= length (nodup string_dec
                           (map (fun x => normalize_name (Keyword.name x)) (kw :: kws))))%nat.
    { cbn [map nodup]. destruct (in_dec _ _ _) as [Hin|Hin]; [|cbn; lia].
      apply (proj2 (nodup_In string_dec _ _)) in Hin. revert Hin.
      generalize (normalize_name (Keyword.name kw)). intros n Hin. clear H.
      destruct (nodup string_dec _); [contradiction|cbn; lia]. }
    cbn [length] in *. lia.
  - rewrite testcase_findings_eq.
    pose proof (duplicates_count Testcase.name (testcase_finding suite)
                  (DuplicateTestNames.testcase_body suite)
                  (fun x c k => testcase_body_step suite x c k)
                  (Suite.testcases suite)) as H.
    destruct (Suite.testcases suite) as [|tc tcs] eqn:E; [cbn in *; lia|].
    assert (1 <= length (nodup string_dec
                           (map (fun x => normalize_name (Testcase.name x)) (tc :: tcs))))%nat.
    { cbn [map nodup]. destruct (in_dec _ _ _) as [Hin|Hin]; [|cbn; lia].
      apply (proj2 (nodup_In string_dec _ _)) in Hin. revert Hin.
      generalize (normalize_name (Testcase.name tc)). intros n Hin. clear H.
      destruct (nodup string_dec _); [contradiction|cbn; lia]. }
    cbn [length] in *. lia.
Qed.
